(** * simple_joystick: device-state store, poller events and edge-triggered commands

    A shallow embedding of [simple_joystick.cpp]:
    - the axis normalisation of [SimpleJoystick::handleAxisEvent], computed
      in IEEE-754 binary32 (the C++ [float]) with the executable
      specification of the standard library ([SpecFloat]);
    - the shared store [current_data_] with [initJoystick], [getData],
      [handleAxisEvent], [handleButtonEvent] and the event dispatch of
      [eventLoop];
    - one iteration of the consumer loop of [main] with its function-local
      static [last_button_state]. *)

From Stdlib Require Import ZArith QArith Qabs Lia String.
From Stdlib Require Import Floats.SpecFloat.
From stdpp Require Import base list.

(** ** binary32 arithmetic *)

Module Float32.

Definition prec : Z := 24.
Definition emax : Z := 128.

Definition float : Type := spec_float.

(** [static_cast<float>(n)] for an integer [n]: round to nearest even. *)
Definition of_int (n : Z) : float := binary_normalize prec emax n 0 false.

Definition div (x y : float) : float := SFdiv prec emax x y.
Definition ltb (x y : float) : bool := SFltb x y.
Definition leb (x y : float) : bool := SFleb x y.
Definition fabs (x : float) : float := SFabs x.

Definition zero : float := S754_zero false.
Definition one : float := of_int 1.
Definition minus_one : float := of_int (-1).

Definition is_finite (x : float) : bool :=
  match x with
  | S754_zero _ | S754_finite _ _ _ => true
  | S754_infinity _ | S754_nan => false
  end.

(** The exact rational value of a finite float (0 for the others). *)
Definition to_Q (x : float) : Q :=
  match x with
  | S754_finite s m e =>
      let v := (if s then Z.neg m else Z.pos m) in
      if (0 <=? e)%Z then inject_Z (v * 2 ^ e) else Qmake v (Z.to_pos (2 ^ (- e)))
  | _ => 0%Q
  end.

End Float32.

Import Float32.

(** ** The normaliser ([handleAxisEvent], lines 139-149) *)

(** [32767.0f] *)
Definition AXIS_MAX : float := of_int 32767.

(** [constexpr float DEADZONE = 0.1f]: the binary32 nearest to 1/10,
    13421773 * 2^-27. *)
Definition DEADZONE : float := S754_finite false 13421773 (-27).

(** Lines 141-144: the two clamping tests. *)
Definition clamp (value : float) : float :=
  let value := if ltb one value then one else value in
  if ltb value minus_one then minus_one else value.

(** Lines 147-149: the dead-zone filter. *)
Definition deadzone (value : float) : float :=
  if ltb (fabs value) DEADZONE then zero else value.

Definition normalizeAxis (raw : Z) : float :=
  deadzone (clamp (div (of_int raw) AXIS_MAX)).

(** The values of [Sint16], the type of [SDL_JoyAxisEvent::value]. *)
Definition Sint16 (z : Z) : Prop := (-32768 <= z <= 32767)%Z.

(** The clamped quotient over the rationals, without rounding. *)
Definition clampQ (q : Q) : Q :=
  if Qle_bool 1 q then 1%Q else if Qle_bool q (-1) then (-1)%Q else q.

Definition exact_quotient (raw : Z) : Q := clampQ (raw # 32767).

Definition Qlt_bool (x y : Q) : bool := negb (Qle_bool y x).

Definition is_pos_zero (v : float) : bool :=
  match v with S754_zero false => true | _ => false end.

Definition float_eqb (x y : float) : bool :=
  match x, y with
  | S754_zero s, S754_zero t => Bool.eqb s t
  | S754_infinity s, S754_infinity t => Bool.eqb s t
  | S754_nan, S754_nan => true
  | S754_finite s m e, S754_finite t n f =>
      Bool.eqb s t && Pos.eqb m n && Z.eqb e f
  | _, _ => false
  end.

(** What one run of the normaliser is checked against. *)
Definition normalizer_check (raw : Z) : bool :=
  let c := clamp (div (of_int raw) AXIS_MAX) in
  let v := normalizeAxis raw in
  Qeq_bool (to_Q (of_int raw)) (inject_Z raw)
  && is_finite c
  && Qle_bool (Qabs (to_Q c - exact_quotient raw)) (1 # 33554432)
  && is_finite v
  && (leb minus_one v && leb v one)
  && (Qle_bool (-1) (to_Q v) && Qle_bool (to_Q v) 1)
  && (negb (ltb (fabs v) DEADZONE) || is_pos_zero v)
  && (negb (Qlt_bool (Qabs (to_Q v)) (1 # 10)) || is_pos_zero v)
  && (if Qlt_bool (Qabs (exact_quotient raw)) (1 # 10)
      then is_pos_zero v else float_eqb v c).

(** [forall_range n lo f]: [f] holds on the [2^n] integers from [lo]. *)
Fixpoint forall_range (n : nat) (lo : Z) (f : Z -> bool) : bool :=
  match n with
  | O => f lo
  | S k => forall_range k lo f && forall_range k (lo + 2 ^ Z.of_nat k)%Z f
  end.

(** ** The input source

    What the program asks of an open [SDL_Joystick*]: its instance id
    ([SDL_JoystickInstanceID]) and its axis and button counts
    ([SDL_JoystickNumAxes], [SDL_JoystickNumButtons]); for an open handle
    the counts are not negative.  The device name is only logged. *)
Record SDL_Joystick : Type := {
  instance_id : Z;
  num_axes : nat;
  num_buttons : nat
}.

(** [SDL_JoyAxisEvent]: [axis] is a [Uint8], [value] a [Sint16]. *)
Record SDL_JoyAxisEvent : Type := {
  axis : nat;
  value : Z
}.

(** [SDL_JoyButtonEvent]: [button] and [state] are [Uint8]. *)
Record SDL_JoyButtonEvent : Type := {
  button : nat;
  state : Z
}.

Definition SDL_PRESSED : Z := 1.
Definition SDL_RELEASED : Z := 0.

(** The event types [eventLoop] switches on; every other type falls
    through the [switch]. *)
Inductive SDL_Event : Type :=
  | SDL_JOYAXISMOTION (jaxis : SDL_JoyAxisEvent)
  | SDL_JOYBUTTONDOWN (jbutton : SDL_JoyButtonEvent)
  | SDL_JOYBUTTONUP (jbutton : SDL_JoyButtonEvent)
  | SDL_JOYDEVICEADDED (which : Z)
  | SDL_JOYDEVICEREMOVED (which : Z)
  | SDL_OTHEREVENT.

(** An event as the input source can deliver it. *)
Definition event_wf (ev : SDL_Event) : Prop :=
  match ev with
  | SDL_JOYAXISMOTION e => Sint16 (value e)
  | _ => True
  end.

(** ** The shared store and the poller *)

Record JoystickData : Type := {
  axes : list float;
  buttons : list bool
}.

(** The members of [class SimpleJoystick] ([data_mutex_] makes every
    access to [current_data_] below atomic; the thread handle is not
    state of the model). *)
Record SimpleJoystick : Type := {
  joystick_ : option SDL_Joystick;
  current_data_ : JoystickData;
  running_ : bool
}.

Definition getData (this : SimpleJoystick) : JoystickData := current_data_ this.

Definition isRunning (this : SimpleJoystick) : bool := running_ this.

Definition stop (this : SimpleJoystick) : SimpleJoystick :=
  {| joystick_ := joystick_ this;
     current_data_ := current_data_ this;
     running_ := false |}.

(** [std::vector::resize(n, x)]: keep the first [n] elements, append
    copies of [x] up to length [n]. *)
Definition vector_resize {A : Type} (n : nat) (x : A) (v : list A) : list A :=
  resize n x v.

(** Lines 78-92; both call sites run it with [joystick_] open. *)
Definition initJoystick (this : SimpleJoystick) : SimpleJoystick :=
  match joystick_ this with
  | None => this
  | Some j =>
      {| joystick_ := joystick_ this;
         current_data_ :=
           {| axes := vector_resize (num_axes j) zero (axes (current_data_ this));
              buttons := vector_resize (num_buttons j) false (buttons (current_data_ this)) |};
         running_ := running_ this |}
  end.

(** The members as their default initialisers leave them. *)
Definition members_default : SimpleJoystick :=
  {| joystick_ := None;
     current_data_ := {| axes := []; buttons := [] |};
     running_ := false |}.

Definition set_joystick (j : option SDL_Joystick) (this : SimpleJoystick) : SimpleJoystick :=
  {| joystick_ := j;
     current_data_ := current_data_ this;
     running_ := running_ this |}.

Definition set_running (b : bool) (this : SimpleJoystick) : SimpleJoystick :=
  {| joystick_ := joystick_ this;
     current_data_ := current_data_ this;
     running_ := b |}.

(** The constructor, lines 24-45, once [SDL_Init] has succeeded (it throws
    otherwise): [num] is [SDL_NumJoysticks()], [opened] what
    [SDL_JoystickOpen(0)] returns. *)
Definition SimpleJoystick_ctor (num : Z) (opened : option SDL_Joystick) : SimpleJoystick :=
  let this := members_default in
  let this :=
    if (0 <? num)%Z then
      let this := set_joystick opened this in
      match joystick_ this with
      | Some _ => initJoystick this
      | None => this
      end
    else this in
  set_running true this.

(** Lines 134-156. *)
Definition handleAxisEvent (event : SDL_JoyAxisEvent) (this : SimpleJoystick) : SimpleJoystick :=
  match joystick_ this with
  | None => this
  | Some _ =>
      let v := normalizeAxis (value event) in
      if axis event <? length (axes (current_data_ this)) then
        {| joystick_ := joystick_ this;
           current_data_ :=
             {| axes := <[axis event := v]> (axes (current_data_ this));
                buttons := buttons (current_data_ this) |};
           running_ := running_ this |}
      else this
  end.

(** Lines 158-168. *)
Definition handleButtonEvent (event : SDL_JoyButtonEvent) (this : SimpleJoystick) : SimpleJoystick :=
  match joystick_ this with
  | None => this
  | Some _ =>
      if button event <? length (buttons (current_data_ this)) then
        {| joystick_ := joystick_ this;
           current_data_ :=
             {| axes := axes (current_data_ this);
                buttons := <[button event := (state event =? SDL_PRESSED)%Z]>
                             (buttons (current_data_ this)) |};
           running_ := running_ this |}
      else this
  end.

(** The body of the [switch] of [eventLoop], lines 103-128.
    [SDL_JoystickOpen] is the input source's answer at the time of the
    event. *)
Definition dispatch (SDL_JoystickOpen : Z -> option SDL_Joystick)
    (event : SDL_Event) (this : SimpleJoystick) : SimpleJoystick :=
  match event with
  | SDL_JOYAXISMOTION jaxis => handleAxisEvent jaxis this
  | SDL_JOYBUTTONDOWN jbutton | SDL_JOYBUTTONUP jbutton => handleButtonEvent jbutton this
  | SDL_JOYDEVICEADDED which =>
      match joystick_ this with
      | None =>
          let this := set_joystick (SDL_JoystickOpen which) this in
          match joystick_ this with
          | Some _ => initJoystick this
          | None => this
          end
      | Some _ => this
      end
  | SDL_JOYDEVICEREMOVED which =>
      match joystick_ this with
      | Some j =>
          if (which =? instance_id j)%Z then set_joystick None this else this
      | None => this
      end
  | SDL_OTHEREVENT => this
  end.

(** The inner [while (SDL_PollEvent(&event))] of one pass of [eventLoop]:
    the queued events in order, each with the input source as it is then. *)
Fixpoint drain (queue : list ((Z -> option SDL_Joystick) * SDL_Event))
    (this : SimpleJoystick) : SimpleJoystick :=
  match queue with
  | [] => this
  | (open, event) :: rest => drain rest (dispatch open event this)
  end.

(** The states the poller and the control channel can produce from a
    constructed object. *)
Inductive reachable : SimpleJoystick -> Prop :=
  | reach_ctor num opened : reachable (SimpleJoystick_ctor num opened)
  | reach_event open event this :
      reachable this -> event_wf event -> reachable (dispatch open event this)
  | reach_stop this : reachable this -> reachable (stop this).

(** The invariant of a stored axis value. *)
Definition axis_ok (v : float) : Prop :=
  is_finite v = true
  /\ (-1 <= to_Q v <= 1)%Q
  /\ (leb minus_one v = true /\ leb v one = true)
  /\ ((Qabs (to_Q v) < 1 # 10)%Q -> v = zero)
  /\ (ltb (fabs v) DEADZONE = true -> v = zero).

Definition store_ok (d : JoystickData) : Prop := Forall axis_ok (axes d).

(** ** The snapshot consumer (the loop of [main], lines 278-332) *)

(** What one pass of the loop writes to the console: the status line with
    the whole snapshot (lines 286-298), and the command lines (lines
    311-323).  A command line carries the loop index of the branch that
    printed it, the command number and the button's name as printed. *)
Inductive output : Type :=
  | StatusLine (data : JoystickData)
  | SendCommand (index : nat) (id : Z) (name : string).

(** Lines 309-324: the chain of tests on the index. *)
Definition button_command (i : nat) : list output :=
  if i =? 0 then [SendCommand i 3 "X"]
  else if i =? 1 then [SendCommand i 1 "A"]
  else if i =? 2 then [SendCommand i 2 "B"]
  else if i =? 3 then [SendCommand i 4 "Y"]
  else [].

(** [v[i]] of a [std::vector]: an index past the end is undefined
    behaviour, [None] here. *)
Definition vector_at {A : Type} (v : list A) (i : nat) : option A := v !! i.

(** Lines 306-325, the body of the loop at index [i]; [&&] reads
    [last_button_state[i]] only where [data.buttons[i]] is true. *)
Definition edge_body (cur last : list bool) (i : nat) : option (list output) :=
  match vector_at cur i with
  | None => None
  | Some false => Some []
  | Some true =>
      match vector_at last i with
      | None => None
      | Some true => Some []
      | Some false => Some (button_command i)
      end
  end.

(** Lines 303-326: [n] passes of the loop from index [i]. *)
Fixpoint edge_loop (cur last : list bool) (i n : nat) : option (list output) :=
  match n with
  | O => Some []
  | S n' =>
      match edge_body cur last i with
      | None => None
      | Some out =>
          match edge_loop cur last (S i) n' with
          | None => None
          | Some rest => Some (out ++ rest)
          end
      end
  end.

(** One pass of [while (program_running)] without its sleep.  [last] is the
    function-local static [last_button_state]: [None] until control first
    passes its declaration, which then initialises it from [data.buttons].
    The result is what was printed and the static afterwards, or [None]
    where the pass has undefined behaviour. *)
Definition mainTick (joystick : SimpleJoystick) (last : option (list bool))
  : option (list output * option (list bool)) :=
  if isRunning joystick then
    let data := getData joystick in
    let last_button_state :=
      match last with
      | Some l => l
      | None => buttons data
      end in
    match edge_loop (buttons data) last_button_state 0 (length (buttons data)) with
    | None => None
    | Some cmds => Some (StatusLine data :: cmds, Some (buttons data))
    end
  else Some ([], last).

(** The command lines of a trace printed at loop index [i]. *)
Definition emitted_for (i : nat) (trace : list output) : list output :=
  List.filter (fun o => match o with
                        | SendCommand k _ _ => k =? i
                        | StatusLine _ => false
                        end) trace.

Definition rendered (trace : list output) : list output :=
  List.filter (fun o => match o with
                        | StatusLine _ => true
                        | SendCommand _ _ _ => false
                        end) trace.

(** A press edge at index [i]: pressed now, not pressed before. *)
Definition edge (cur prev : list bool) (i : nat) : bool :=
  match cur !! i, prev !! i with
  | Some true, Some false => true
  | _, _ => false
  end.

(** Every read of [last_button_state[i]] made by the loop is inside the
    vector: each pressed index of [cur] exists in [prev]. *)
Fixpoint reads_in_bounds (cur prev : list bool) : bool :=
  match cur, prev with
  | [], _ => true
  | c :: cs, [] => negb c && reads_in_bounds cs []
  | _ :: cs, _ :: ps => reads_in_bounds cs ps
  end.

(** The previous button state a running pass compares against. *)
Definition previous_of (last : option (list bool)) (data : JoystickData) : list bool :=
  match last with
  | Some l => l
  | None => buttons data
  end.

(** Edge detection as the specification words it, for every index. *)
Definition edge_claim_as_stated : Prop :=
  forall (joystick : SimpleJoystick) (prev : list bool) (i : nat) trace last',
    isRunning joystick = true ->
    length prev = length (buttons (getData joystick)) ->
    mainTick joystick (Some prev) = Some (trace, last') ->
    (length (emitted_for i trace) = 1
     <-> (buttons (getData joystick) !! i = Some true /\ prev !! i = Some false)).

(** ** A re-plug scenario

    A pad with one axis and one button is open at start-up; its axis is
    pushed to full scale and its button pressed; it is unplugged; a pad
    with two axes and two buttons is plugged in and opened. *)
Definition pad1 : SDL_Joystick := {| instance_id := 0; num_axes := 1; num_buttons := 1 |}.
Definition pad2 : SDL_Joystick := {| instance_id := 1; num_axes := 2; num_buttons := 2 |}.

Definition no_device : Z -> option SDL_Joystick := fun _ => None.
Definition plugged (j : SDL_Joystick) : Z -> option SDL_Joystick :=
  fun index => if (index =? 0)%Z then Some j else None.

Definition replug_queue : list ((Z -> option SDL_Joystick) * SDL_Event) :=
  [ (plugged pad1, SDL_JOYAXISMOTION {| axis := 0; value := 32767 |});
    (plugged pad1, SDL_JOYBUTTONDOWN {| button := 0; state := SDL_PRESSED |});
    (no_device, SDL_JOYDEVICEREMOVED 0);
    (plugged pad2, SDL_JOYDEVICEADDED 0) ].

(** The object as constructed with one pad present. *)
Definition pad1_open : SimpleJoystick := SimpleJoystick_ctor 1 (Some pad1).
Definition pad2_open : SimpleJoystick := SimpleJoystick_ctor 1 (Some pad2).

Definition replugged : SimpleJoystick := drain replug_queue pad1_open.

(** What the loop prints at index [k] and over [n] indices from [i], where
    every read is in bounds. *)
Definition edge_output (cur prev : list bool) (k : nat) : list output :=
  if edge cur prev k then button_command k else [].

Definition loop_output (cur prev : list bool) (i n : nat) : list output :=
  List.flat_map (edge_output cur prev) (seq i n).

(** A running object whose store holds the given buttons. *)
Definition with_buttons (b : list bool) : SimpleJoystick :=
  {| joystick_ := None;
     current_data_ := {| axes := []; buttons := b |};
     running_ := true |}.

(** ** A session with a four-button pad

    A pad with two axes and four buttons is open at start-up; axis 0 is
    moved to raw 16000 and button 1 is pressed. *)
Definition pad4 : SDL_Joystick := {| instance_id := 0; num_axes := 2; num_buttons := 4 |}.

Definition pad4_open : SimpleJoystick := SimpleJoystick_ctor 1 (Some pad4).

Definition pad4_pressed : SimpleJoystick :=
  drain [ (plugged pad4, SDL_JOYAXISMOTION {| axis := 0; value := 16000 |});
          (plugged pad4, SDL_JOYBUTTONDOWN {| button := 1; state := SDL_PRESSED |}) ]
        pad4_open.

(** No pad at start-up; one with four buttons is plugged in later and its
    button 1 pressed. *)
Definition late_attach : SimpleJoystick :=
  drain [ (plugged pad4, SDL_JOYDEVICEADDED 0);
          (plugged pad4, SDL_JOYBUTTONDOWN {| button := 1; state := SDL_PRESSED |}) ]
        (SimpleJoystick_ctor 0 None).

(** ** The shape of the normaliser *)

(** Line 141, [value > 1.0f], and line 143, [value < -1.0f], on the
    quotient of a raw value. *)
Definition upper_clamp_fires (raw : Z) : bool :=
  ltb one (div (of_int raw) AXIS_MAX).

Definition lower_clamp_fires (raw : Z) : bool :=
  let value := div (of_int raw) AXIS_MAX in
  let value := if ltb one value then one else value in
  ltb value minus_one.

(** The mirror image of a stored value: the sign flipped, 0.0 kept. *)
Definition mirrored (v : float) : float :=
  if is_pos_zero v then zero else SFopp v.

(** What one raw value is checked against, with its successor and, from 0
    up, its negation; the quotient is computed once. *)
Definition normalizer_shape_check (raw : Z) : bool :=
  let q := div (of_int raw) AXIS_MAX in
  let v := deadzone (clamp q) in
  let v' := normalizeAxis (raw + 1) in
  Bool.eqb (is_pos_zero v) (Z.abs raw <=? 3276)%Z
  && Bool.eqb (float_eqb v minus_one) (raw <=? -32767)%Z
  && Bool.eqb (float_eqb v one) (raw =? 32767)%Z
  && negb (ltb one q)
  && Bool.eqb (ltb (if ltb one q then one else q) minus_one) (raw =? -32768)%Z
  && ((raw =? 32767)%Z
      || (Qle_bool (to_Q v) (to_Q v')
          && (is_pos_zero v && is_pos_zero v'
              || (raw =? -32768)%Z
              || Qlt_bool (to_Q v) (to_Q v'))))
  && (if (raw <? 0)%Z then true else float_eqb (normalizeAxis (- raw)) (mirrored v)).

(** ** Events by kind *)

Definition is_device_added (event : SDL_Event) : bool :=
  match event with
  | SDL_JOYDEVICEADDED _ => true
  | _ => false
  end.

(** The snapshot of a store holding nothing but default values for the
    counts of device [j]. *)
Definition default_snapshot (j : SDL_Joystick) : JoystickData :=
  {| axes := replicate (num_axes j) zero; buttons := replicate (num_buttons j) false |}.

(** The stored sequences have the lengths the open device reported. *)
Definition lengths_match (this : SimpleJoystick) : Prop :=
  forall j, joystick_ this = Some j ->
    length (axes (getData this)) = num_axes j
    /\ length (buttons (getData this)) = num_buttons j.

(** The one-axis pad pushed to full scale, then unplugged. *)
Definition pad1_unplugged : SimpleJoystick :=
  drain [ (plugged pad1, SDL_JOYAXISMOTION {| axis := 0; value := 32767 |});
          (no_device, SDL_JOYDEVICEREMOVED 0) ]
        pad1_open.

(** ** The control channel ([keyboardListener], lines 178-237) *)

(** The lines the listener writes, by the branch that writes them. *)
Inductive console_line : Type :=
  | KbBanner                       (* lines 180-184 *)
  | KbPaused                       (* line 198 *)
  | KbCannotRestart                (* line 203 *)
  | KbExiting                      (* line 210 *)
  | KbCannotReconnect              (* line 216 *)
  | KbReconnecting                 (* line 220 *)
  | KbUnknown (cmd : Byte.byte)    (* line 231 *)
  | KbHelp.                        (* line 232 *)

(** The [switch (cmd)] of lines 192-233: [running] is main's
    [program_running], [joystick] the shared object.  The result is the
    two of them afterwards and what was printed. *)
Definition key_switch (cmd : Byte.byte) (running : bool) (joystick : SimpleJoystick)
  : bool * SimpleJoystick * list console_line :=
  match cmd with
  | Byte.x73 (* 's' *) =>
      if isRunning joystick then (running, stop joystick, [KbPaused])
      else (running, joystick, [KbCannotRestart])
  | Byte.x71 (* 'q' *) => (false, stop joystick, [KbExiting])
  | Byte.x72 (* 'r' *) =>
      if negb (isRunning joystick) then (running, joystick, [KbCannotReconnect])
      else (running, joystick, [KbReconnecting])
  | Byte.x0a (* newline *) => (running, joystick, [])
  | _ => (running, joystick, [KbUnknown cmd; KbHelp])
  end.

(** The [while (running)] of lines 186-236 on the characters that arrive
    on standard input, one per turn of the loop; at the end of the input
    the loop idles. *)
Fixpoint keyboard_loop (input : list Byte.byte) (running : bool) (joystick : SimpleJoystick)
  : bool * SimpleJoystick * list console_line :=
  match input with
  | [] => (running, joystick, [])
  | cmd :: rest =>
      if running then
        let '(running', joystick', out) := key_switch cmd running joystick in
        let '(running'', joystick'', out') := keyboard_loop rest running' joystick' in
        (running'', joystick'', out ++ out')
      else (running, joystick, [])
  end.

Definition keyboardListener (input : list Byte.byte) (running : bool) (joystick : SimpleJoystick)
  : bool * SimpleJoystick * list console_line :=
  let '(running', joystick', out) := keyboard_loop input running joystick in
  (running', joystick', KbBanner :: out).

(** ** The three threads together

    The steps of the poller thread, the listener thread and main, in the
    order they take effect.  Every step is atomic: an event handler writes
    the store under [data_mutex_], the flags are atomic, and a pass of main
    reads the run flag once and the store once.  The poller's
    [while (running_)] is not modelled: a schedule may deliver events after
    a stop, which covers the events the poller still drains before it
    leaves its loop. *)
Inductive action : Type :=
  | PollerEvent (open : Z -> option SDL_Joystick) (event : SDL_Event)
  | KeyRead (cmd : Byte.byte)
  | MainPass.

Record process : Type := {
  proc_joystick : SimpleJoystick;
  proc_program_running : bool;
  proc_last : option (list bool);
  proc_main_output : list output;
  proc_listener_output : list console_line
}.

(** [main] up to the loop, lines 272-276, with the constructor's view of
    the input source. *)
Definition boot (num : Z) (opened : option SDL_Joystick) : process :=
  {| proc_joystick := SimpleJoystick_ctor num opened;
     proc_program_running := true;
     proc_last := None;
     proc_main_output := [];
     proc_listener_output := [KbBanner] |}.

(** One step; [None] where a pass of main has undefined behaviour.  The
    listener reads a key and main makes a pass only while
    [program_running] holds. *)
Definition step (a : action) (p : process) : option process :=
  match a with
  | PollerEvent open event =>
      Some {| proc_joystick := dispatch open event (proc_joystick p);
              proc_program_running := proc_program_running p;
              proc_last := proc_last p;
              proc_main_output := proc_main_output p;
              proc_listener_output := proc_listener_output p |}
  | KeyRead cmd =>
      if proc_program_running p then
        let '(running, joystick, out) :=
          key_switch cmd (proc_program_running p) (proc_joystick p) in
        Some {| proc_joystick := joystick;
                proc_program_running := running;
                proc_last := proc_last p;
                proc_main_output := proc_main_output p;
                proc_listener_output := proc_listener_output p ++ out |}
      else Some p
  | MainPass =>
      if proc_program_running p then
        match mainTick (proc_joystick p) (proc_last p) with
        | None => None
        | Some (out, last) =>
            Some {| proc_joystick := proc_joystick p;
                    proc_program_running := proc_program_running p;
                    proc_last := last;
                    proc_main_output := proc_main_output p ++ out;
                    proc_listener_output := proc_listener_output p |}
        end
      else Some p
  end.

Fixpoint run (schedule : list action) (p : process) : option process :=
  match schedule with
  | [] => Some p
  | a :: rest =>
      match step a p with
      | None => None
      | Some p' => run rest p'
      end
  end.

(** The action is the poller handling the removal of instance [id]. *)
Definition removes (id : Z) (a : action) : bool :=
  match a with
  | PollerEvent _ (SDL_JOYDEVICEREMOVED which) => (which =? id)%Z
  | _ => false
  end.

(** The key stops the joystick: 's' or 'q'. *)
Definition is_stop_key (cmd : Byte.byte) : bool :=
  match cmd with
  | Byte.x73 | Byte.x71 => true
  | _ => false
  end.

Definition is_quit_key (cmd : Byte.byte) : bool :=
  match cmd with
  | Byte.x71 => true
  | _ => false
  end.

(** What a pad with the counts of [j], open since start-up, guarantees the
    consumer. *)
Definition pad_invariant (j : SDL_Joystick) (p : process) : Prop :=
  joystick_ (proc_joystick p) = Some j
  /\ lengths_match (proc_joystick p)
  /\ match proc_last p with
     | None => True
     | Some l => length l = num_buttons j
     end.

(** A session of the four-button pad: a pass, button 1 pressed, two passes
    (the press, then the hold), 's', the release and a new press, a pass,
    'q', a pass. *)
Definition pad4_schedule : list action :=
  [ MainPass;
    PollerEvent (plugged pad4) (SDL_JOYBUTTONDOWN {| button := 1; state := SDL_PRESSED |});
    MainPass; MainPass;
    KeyRead Byte.x73;
    PollerEvent (plugged pad4) (SDL_JOYBUTTONUP {| button := 1; state := SDL_RELEASED |});
    PollerEvent (plugged pad4) (SDL_JOYBUTTONDOWN {| button := 2; state := SDL_PRESSED |});
    MainPass;
    KeyRead Byte.x71;
    MainPass ].

(** ** Several passes of main *)

(** The passes of main over the objects as each pass finds them, threading
    [last_button_state]; what all of them printed, in order. *)
Fixpoint main_passes (found : list SimpleJoystick) (last : option (list bool))
  : option (list output * option (list bool)) :=
  match found with
  | [] => Some ([], last)
  | joystick :: rest =>
      match mainTick joystick last with
      | None => None
      | Some (out, last') =>
          match main_passes rest last' with
          | None => None
          | Some (out', last'') => Some (out ++ out', last'')
          end
      end
  end.

(** The number of false-to-true steps of button [i] along a sequence of
    snapshots, the first one compared with [last] (with itself when [last]
    is not set yet). *)
Fixpoint rising_edges (i : nat) (last : option (list bool)) (snapshots : list (list bool))
  : nat :=
  match snapshots with
  | [] => 0
  | cur :: rest =>
      (if edge cur (default cur last) i then 1 else 0) + rising_edges i (Some cur) rest
  end.

Definition final_last (last : option (list bool)) (snapshots : list (list bool))
  : option (list bool) :=
  List.fold_left (fun _ cur => Some cur) snapshots last.

Definition snapshot_buttons (found : list SimpleJoystick) : list (list bool) :=
  List.map (fun joystick => buttons (getData joystick)) found.

(** A pass finds the joystick running with [n] buttons. *)
Definition running_with (n : nat) (joystick : SimpleJoystick) : Prop :=
  isRunning joystick = true /\ length (buttons (getData joystick)) = n.

Definition last_has (n : nat) (last : option (list bool)) : Prop :=
  match last with
  | None => True
  | Some l => length l = n
  end.

(** Button 1 of four: up, down, down, up, down. *)
Definition tap_hold_tap : list SimpleJoystick :=
  [ with_buttons [false; false; false; false];
    with_buttons [false; true; false; false];
    with_buttons [false; true; false; false];
    with_buttons [false; false; false; false];
    with_buttons [false; true; false; false] ].

(** The four lines the command table can print. *)
Definition table_line (o : output) : Prop :=
  exists k, k < 4 /\ button_command k = [o].

(** ** The poller's outer loop

    [eventLoop], lines 94-132, without its sleep: each turn of
    [while (running_)] tests the run flag and then drains the queue it
    finds.  [passes] are the queues of the turns so far; the flag tested is
    the object's own, so a stop by another thread is a stopped object
    handed to the next turn. *)
Fixpoint eventLoop (passes : list (list ((Z -> option SDL_Joystick) * SDL_Event)))
    (this : SimpleJoystick) : SimpleJoystick :=
  match passes with
  | [] => this
  | queue :: rest =>
      if running_ this then eventLoop rest (drain queue this) else this
  end.

(** ** Keys and events on the shared object

    What reaches the shared object from the listener and from the poller,
    in the order it takes effect.  The listener handles a key only while
    [program_running] holds.  Events are applied whether or not the object
    is running: that covers the events the poller still drains after a
    stop, and more. *)
Inductive control_input : Type :=
  | KeyInput (cmd : Byte.byte)
  | EventInput (open : Z -> option SDL_Joystick) (event : SDL_Event).

Fixpoint apply_inputs (inputs : list control_input) (running : bool)
    (joystick : SimpleJoystick) : bool * SimpleJoystick :=
  match inputs with
  | [] => (running, joystick)
  | KeyInput cmd :: rest =>
      if running then
        let '(running', joystick', _) := key_switch cmd running joystick in
        apply_inputs rest running' joystick'
      else apply_inputs rest running joystick
  | EventInput open event :: rest =>
      apply_inputs rest running (dispatch open event joystick)
  end.

Lemma forall_range_spec (n : nat) (lo : Z) (f : Z -> bool) :
  forall_range n lo f = true ->
  forall z, (lo <= z < lo + 2 ^ Z.of_nat n)%Z -> f z = true.
Proof.
  revert lo; induction n as [|k IH]; intros lo H z Hz.
  - simpl in *. assert (z = lo) by lia. now subst.
  - cbn [forall_range] in H. apply andb_prop in H as [Hl Hr].
    rewrite Nat2Z.inj_succ, Z.pow_succ_r in Hz by lia.
    destruct (Z_lt_le_dec z (lo + 2 ^ Z.of_nat k)) as [Hlt|Hge].
    + apply (IH lo Hl). lia.
    + apply (IH _ Hr). lia.
Qed.

Lemma normalizer_checked : forall raw, Sint16 raw -> normalizer_check raw = true.
Proof.
  intros raw Hraw.
  apply (forall_range_spec 16 (-32768)); [vm_compute; reflexivity|].
  unfold Sint16 in Hraw. change (2 ^ Z.of_nat 16)%Z with 65536%Z. lia.
Qed.

(** ** The normaliser *)

Lemma float_eqb_eq (x y : float) : float_eqb x y = true -> x = y.
Proof.
  destruct x as [s|s| |s m e], y as [t|t| |t n f]; simpl; try discriminate; try reflexivity.
  - intros H. apply Bool.eqb_prop in H. now subst.
  - intros H. apply Bool.eqb_prop in H. now subst.
  - intros H. apply andb_prop in H as [H He]. apply andb_prop in H as [Hs Hm].
    apply Bool.eqb_prop in Hs. apply Pos.eqb_eq in Hm. apply Z.eqb_eq in He.
    now subst.
Qed.

Lemma is_pos_zero_eq (v : float) : is_pos_zero v = true -> v = zero.
Proof. destruct v as [[|]|s| |s m e]; simpl; try discriminate; reflexivity. Qed.

Lemma Qlt_bool_iff (x y : Q) : Qlt_bool x y = true <-> (x < y)%Q.
Proof.
  unfold Qlt_bool. rewrite Bool.negb_true_iff. split.
  - intros H. apply Qnot_le_lt. intros Hle. apply Qle_bool_iff in Hle. congruence.
  - intros H. destruct (Qle_bool y x) eqn:E; [|reflexivity].
    apply Qle_bool_iff in E. exfalso. exact (Qlt_not_le _ _ H E).
Qed.

Lemma implb_pos_zero (b : bool) (v : float) :
  negb b || is_pos_zero v = true -> b = true -> v = zero.
Proof.
  intros H Hb. subst b. simpl in H. now apply is_pos_zero_eq.
Qed.

Ltac split_check H :=
  unfold normalizer_check in H; cbv zeta in H;
  repeat match goal with
         | G : (_ && _) = true |- _ => apply andb_prop in G as [? ?]
         end;
  repeat match goal with
         | G : Qle_bool _ _ = true |- _ => apply Qle_bool_iff in G
         | G : Qeq_bool _ _ = true |- _ => apply Qeq_bool_iff in G
         end.

Lemma normalizeAxis_axis_ok (raw : Z) : Sint16 raw -> axis_ok (normalizeAxis raw).
Proof.
  intros Hraw. pose proof (normalizer_checked raw Hraw) as H.
  split_check H.
  unfold axis_ok. repeat split; try assumption.
  - intros Hlt. apply Qlt_bool_iff in Hlt.
    match goal with
    | G : negb (Qlt_bool _ _) || _ = true |- _ => exact (implb_pos_zero _ _ G Hlt)
    end.
  - intros Hlt.
    match goal with
    | G : negb (ltb _ _) || _ = true |- _ => exact (implb_pos_zero _ _ G Hlt)
    end.
Qed.

(** [0.1f] is 1/10 rounded to binary32: what the division 1.0f / 10.0f
    yields, and within 2^-28 of 1/10. *)
Lemma DEADZONE_is_rounded_tenth :
  DEADZONE = div one (of_int 10)
  /\ (Qabs (to_Q DEADZONE - (1 # 10)) <= 1 # 268435456)%Q
  /\ (1 # 10 < to_Q DEADZONE)%Q.
Proof.
  split; [reflexivity|]. split; [now apply Qle_bool_iff | now apply Qlt_bool_iff].
Qed.

Lemma float_constants :
  (to_Q AXIS_MAX == 32767)%Q /\ (to_Q one == 1)%Q /\ (to_Q minus_one == -1)%Q
  /\ (to_Q zero == 0)%Q.
Proof. repeat split; now apply Qeq_bool_iff. Qed.

Lemma zero_axis_ok : axis_ok zero.
Proof.
  unfold axis_ok. repeat split; try reflexivity; try (intros _; reflexivity);
    vm_compute; discriminate.
Qed.

(** C2: for every 16-bit raw value the normaliser returns the binary32
    quotient raw / 32767.0f clamped to [-1, 1] (within 2^-25 of the exact
    clamped quotient), replaced by exactly 0.0 whenever its absolute value
    is below the dead zone (equivalently, whenever |raw / 32767| < 1/10);
    the result is finite and lies in [-1, 1]; equal inputs give equal
    results. *)
Theorem normalizeAxis_spec (raw : Z) :
  Sint16 raw ->
  let c := clamp (div (of_int raw) AXIS_MAX) in
  let v := normalizeAxis raw in
  (to_Q (of_int raw) == inject_Z raw)%Q
  /\ is_finite c = true
  /\ (Qabs (to_Q c - exact_quotient raw) <= 1 # 33554432)%Q
  /\ v = (if ltb (fabs c) DEADZONE then zero else c)
  /\ ((Qabs (exact_quotient raw) < 1 # 10)%Q -> v = zero)
  /\ (~ (Qabs (exact_quotient raw) < 1 # 10)%Q -> v = c)
  /\ is_finite v = true
  /\ (-1 <= to_Q v <= 1)%Q
  /\ (leb minus_one v = true /\ leb v one = true)
  /\ (forall raw', raw' = raw -> normalizeAxis raw' = v).
Proof.
  intros Hraw c v.
  pose proof (normalizer_checked raw Hraw) as H.
  pose proof (normalizeAxis_axis_ok raw Hraw) as (Hfin & Hrange & Hcmp & _ & _).
  unfold normalizer_check in H. cbv zeta in H. fold c v in H.
  destruct (Qlt_bool (Qabs (exact_quotient raw)) (1 # 10)) eqn:E.
  all: split_check H.
  all: repeat match goal with |- _ /\ _ => split end; try assumption;
    try reflexivity; try apply Hrange; try apply Hcmp.
  all: try (intros raw' ->; reflexivity).
  - intros _. now apply is_pos_zero_eq.
  - intros Hge. exfalso. apply Hge. now apply Qlt_bool_iff.
  - intros Hlt. apply Qlt_bool_iff in Hlt. congruence.
  - intros _. now apply float_eqb_eq.
Qed.

Lemma normalizeAxis_spec_witness :
  Sint16 16000
  /\ normalizeAxis 16000 = S754_finite false 16384500 (-25)
  /\ is_finite (normalizeAxis 16000) = true.
Proof.
  assert (H : Sint16 16000) by (unfold Sint16; lia).
  split; [exact H|]. split; [reflexivity|].
  exact (proj1 (proj2 (proj2 (proj2 (proj2 (proj2 (proj2 (normalizeAxis_spec 16000 H)))))))).
Defined.

(** ** The store and the poller *)

Lemma initJoystick_lengths (this : SimpleJoystick) (j : SDL_Joystick) :
  joystick_ this = Some j ->
  length (axes (getData (initJoystick this))) = num_axes j
  /\ length (buttons (getData (initJoystick this))) = num_buttons j.
Proof.
  intros Hj. unfold initJoystick, getData, vector_resize. rewrite Hj. simpl.
  split; apply length_resize.
Qed.

(** On a store that is still empty, as at the first open, [initJoystick]
    leaves nothing but the default values. *)
Lemma initJoystick_first_open (this : SimpleJoystick) (j : SDL_Joystick) :
  joystick_ this = Some j ->
  axes (current_data_ this) = [] ->
  buttons (current_data_ this) = [] ->
  getData (initJoystick this)
  = {| axes := replicate (num_axes j) zero; buttons := replicate (num_buttons j) false |}.
Proof.
  intros Hj Ha Hb. unfold initJoystick, getData, vector_resize.
  rewrite Hj, Ha, Hb. simpl. now rewrite !resize_nil.
Qed.

Lemma ctor_with_device (num : Z) (j : SDL_Joystick) :
  (0 < num)%Z ->
  getData (SimpleJoystick_ctor num (Some j))
  = {| axes := replicate (num_axes j) zero; buttons := replicate (num_buttons j) false |}.
Proof.
  intros Hnum. unfold SimpleJoystick_ctor.
  destruct (Z.ltb_spec 0 num) as [_|Hle]; [|lia].
  simpl. unfold getData, vector_resize. simpl. now rewrite !resize_nil.
Qed.

(** On a store that already holds values, the first [n] of them survive. *)
Lemma initJoystick_keeps_prefix (this : SimpleJoystick) (j : SDL_Joystick) (i : nat) :
  joystick_ this = Some j ->
  (i < num_axes j -> i < length (axes (current_data_ this)) ->
   axes (getData (initJoystick this)) !! i = axes (current_data_ this) !! i)
  /\ (i < num_buttons j -> i < length (buttons (current_data_ this)) ->
      buttons (getData (initJoystick this)) !! i = buttons (current_data_ this) !! i).
Proof.
  intros Hj. unfold initJoystick, getData, vector_resize. rewrite Hj. simpl.
  split; intros; now apply lookup_resize.
Qed.

Lemma drain_reachable queue this :
  Forall (fun oe => event_wf (snd oe)) queue -> reachable this -> reachable (drain queue this).
Proof.
  intros Hq. revert this. induction Hq as [|[open event] rest Hwf _ IH]; intros this Hr.
  - exact Hr.
  - simpl. apply IH. now apply reach_event.
Qed.

Lemma replug_queue_wf : Forall (fun oe => event_wf (snd oe)) replug_queue.
Proof.
  unfold replug_queue.
  repeat (apply List.Forall_cons; [simpl; unfold Sint16; try lia; exact I|]).
  apply List.Forall_nil.
Qed.

(** C4: [initJoystick] resizes; it does not reset.  After the re-plug
    scenario the poller has just opened a pad with two axes and two
    buttons, the lengths read from the store are 2 and 2, yet axis 0 still
    holds the 1.0 and button 0 the pressed state of the pad that was
    unplugged: the read is not all 0.0 and all false. *)
Theorem initJoystick_keeps_stale_values :
  reachable replugged
  /\ joystick_ replugged = Some pad2
  /\ getData replugged = {| axes := [one; zero]; buttons := [true; false] |}
  /\ getData replugged
     <> {| axes := replicate (num_axes pad2) zero;
           buttons := replicate (num_buttons pad2) false |}.
Proof.
  split.
  - apply drain_reachable; [apply replug_queue_wf | constructor].
  - split; [reflexivity|]. split; [vm_compute; reflexivity|].
    vm_compute. discriminate.
Qed.

Lemma handleAxisEvent_out_of_range event this :
  length (axes (current_data_ this)) <= axis event -> handleAxisEvent event this = this.
Proof.
  intros Hge. unfold handleAxisEvent. destruct (joystick_ this); [|reflexivity].
  destruct (Nat.ltb_spec (axis event) (length (axes (current_data_ this)))); [lia|reflexivity].
Qed.

Lemma handleButtonEvent_out_of_range event this :
  length (buttons (current_data_ this)) <= button event -> handleButtonEvent event this = this.
Proof.
  intros Hge. unfold handleButtonEvent. destruct (joystick_ this); [|reflexivity].
  destruct (Nat.ltb_spec (button event) (length (buttons (current_data_ this)))); [lia|reflexivity].
Qed.

(** C5: an axis event whose index is not below the length of the stored
    axes, and a button event (down or up) whose index is not below the
    length of the stored buttons, leave the whole object as it was; the
    handlers are total, so nothing is raised. *)
Theorem out_of_range_events_dropped (open : Z -> option SDL_Joystick) (this : SimpleJoystick) :
  (forall jaxis, length (axes (getData this)) <= axis jaxis ->
     handleAxisEvent jaxis this = this
     /\ dispatch open (SDL_JOYAXISMOTION jaxis) this = this)
  /\ (forall jbutton, length (buttons (getData this)) <= button jbutton ->
        handleButtonEvent jbutton this = this
        /\ dispatch open (SDL_JOYBUTTONDOWN jbutton) this = this
        /\ dispatch open (SDL_JOYBUTTONUP jbutton) this = this).
Proof.
  unfold getData. split.
  - intros jaxis H. simpl. split; now apply handleAxisEvent_out_of_range.
  - intros jbutton H. simpl. repeat split; now apply handleButtonEvent_out_of_range.
Qed.

Lemma out_of_range_events_dropped_witness :
  length (axes (getData pad1_open)) <= 1
  /\ handleAxisEvent {| axis := 1; value := 32767 |} pad1_open = pad1_open
  /\ length (buttons (getData pad1_open)) <= 7
  /\ handleButtonEvent {| button := 7; state := SDL_PRESSED |} pad1_open = pad1_open.
Proof.
  assert (Ha : length (axes (getData pad1_open)) <= 1) by (vm_compute; lia).
  assert (Hb : length (buttons (getData pad1_open)) <= 7) by (vm_compute; lia).
  split; [exact Ha|]. split.
  - exact (proj1 (proj1 (out_of_range_events_dropped no_device pad1_open)
                    {| axis := 1; value := 32767 |} Ha)).
  - split; [exact Hb|].
    exact (proj1 (proj2 (out_of_range_events_dropped no_device pad1_open)
                    {| button := 7; state := SDL_PRESSED |} Hb)).
Defined.

Lemma initJoystick_store_ok this : store_ok (getData this) -> store_ok (getData (initJoystick this)).
Proof.
  unfold store_ok, getData, initJoystick, vector_resize. intros H.
  destruct (joystick_ this); [|exact H]. simpl.
  apply Forall_resize; [apply zero_axis_ok | exact H].
Qed.

Lemma handleAxisEvent_store_ok event this :
  Sint16 (value event) -> store_ok (getData this) -> store_ok (getData (handleAxisEvent event this)).
Proof.
  unfold store_ok, getData, handleAxisEvent. intros Hv H.
  destruct (joystick_ this); [|exact H].
  destruct (axis event <? length (axes (current_data_ this))); [|exact H]. simpl.
  apply Forall_insert; [exact H | now apply normalizeAxis_axis_ok].
Qed.

Lemma handleButtonEvent_axes event this :
  axes (getData (handleButtonEvent event this)) = axes (getData this).
Proof.
  unfold getData, handleButtonEvent. destruct (joystick_ this); [|reflexivity].
  now destruct (button event <? length (buttons (current_data_ this))).
Qed.

Lemma dispatch_store_ok open event this :
  event_wf event -> store_ok (getData this) -> store_ok (getData (dispatch open event this)).
Proof.
  intros Hwf H. destruct event as [jaxis|jbutton|jbutton|which|which|]; cbn [dispatch].
  - now apply handleAxisEvent_store_ok.
  - unfold store_ok. now rewrite handleButtonEvent_axes.
  - unfold store_ok. now rewrite handleButtonEvent_axes.
  - destruct (joystick_ this) eqn:Hj; [exact H|]. cbv zeta.
    change (joystick_ (set_joystick (open which) this)) with (open which).
    destruct (open which) as [j|] eqn:Ho; [|exact H].
    apply initJoystick_store_ok. exact H.
  - destruct (joystick_ this) as [j|]; [|exact H].
    now destruct (which =? instance_id j)%Z.
  - exact H.
Qed.

Lemma ctor_store_ok num opened : store_ok (getData (SimpleJoystick_ctor num opened)).
Proof.
  unfold SimpleJoystick_ctor. destruct (0 <? num)%Z; [|constructor].
  destruct opened as [j|]; simpl; [|constructor].
  unfold store_ok, getData, vector_resize. simpl.
  apply Forall_resize; [apply zero_axis_ok | constructor].
Qed.

(** C6: every stored axis value is finite, lies in [-1, 1], and is exactly
    0.0 when its absolute value is below the dead zone (below 1/10, and
    below the binary32 constant 0.1f).  The store of a freshly constructed
    object satisfies this, [initJoystick], [handleAxisEvent] (on a 16-bit
    raw value), [handleButtonEvent] and every dispatched event preserve it,
    and so it holds in every reachable state. *)
Theorem stored_axes_invariant :
  (forall num opened, store_ok (getData (SimpleJoystick_ctor num opened)))
  /\ (forall this, store_ok (getData this) -> store_ok (getData (initJoystick this)))
  /\ (forall event this, Sint16 (value event) -> store_ok (getData this) ->
        store_ok (getData (handleAxisEvent event this)))
  /\ (forall event this, store_ok (getData this) ->
        store_ok (getData (handleButtonEvent event this)))
  /\ (forall open event this, event_wf event -> store_ok (getData this) ->
        store_ok (getData (dispatch open event this)))
  /\ (forall this, reachable this ->
        forall i v, axes (getData this) !! i = Some v -> axis_ok v).
Proof.
  split; [exact ctor_store_ok|]. split; [exact initJoystick_store_ok|].
  split; [exact handleAxisEvent_store_ok|]. split.
  { intros event this H. unfold store_ok. now rewrite handleButtonEvent_axes. }
  split; [exact dispatch_store_ok|].
  intros this Hr. enough (Hok : store_ok (getData this)).
  { intros i v Hi. unfold store_ok in Hok. rewrite Forall_lookup in Hok. eauto. }
  induction Hr as [num opened|open event this Hr IH Hwf|this Hr IH].
  - apply ctor_store_ok.
  - now apply dispatch_store_ok.
  - exact IH.
Qed.

Lemma stored_axes_invariant_witness :
  event_wf (SDL_JOYAXISMOTION {| axis := 0; value := 16000 |})
  /\ axes (getData (dispatch (plugged pad1)
                      (SDL_JOYAXISMOTION {| axis := 0; value := 16000 |}) pad1_open)) !! 0
     = Some (S754_finite false 16384500 (-25))
  /\ axis_ok (S754_finite false 16384500 (-25)).
Proof.
  assert (Hwf : event_wf (SDL_JOYAXISMOTION {| axis := 0; value := 16000 |}))
    by (simpl; unfold Sint16; lia).
  assert (Hr : reachable (dispatch (plugged pad1)
                            (SDL_JOYAXISMOTION {| axis := 0; value := 16000 |}) pad1_open))
    by (apply reach_event; [apply reach_ctor | exact Hwf]).
  assert (Hi : axes (getData (dispatch (plugged pad1)
                      (SDL_JOYAXISMOTION {| axis := 0; value := 16000 |}) pad1_open)) !! 0
               = Some (S754_finite false 16384500 (-25)))
    by reflexivity.
  split; [exact Hwf|]. split; [exact Hi|].
  exact (proj2 (proj2 (proj2 (proj2 (proj2 stored_axes_invariant)))) _ Hr 0 _ Hi).
Defined.

(** C8: while a device with instance id Y is open, a device-removed event
    carrying another id X changes nothing: the handle stays open and the
    store, like the rest of the object, is what it was. *)
Theorem detach_other_instance_ignored
    (open : Z -> option SDL_Joystick) (X : Z) (j : SDL_Joystick) (this : SimpleJoystick) :
  joystick_ this = Some j ->
  X <> instance_id j ->
  dispatch open (SDL_JOYDEVICEREMOVED X) this = this
  /\ joystick_ (dispatch open (SDL_JOYDEVICEREMOVED X) this) = Some j
  /\ getData (dispatch open (SDL_JOYDEVICEREMOVED X) this) = getData this.
Proof.
  intros Hj Hne.
  assert (Heq : dispatch open (SDL_JOYDEVICEREMOVED X) this = this).
  { simpl. rewrite Hj. destruct (Z.eqb_spec X (instance_id j)); [contradiction|reflexivity]. }
  rewrite Heq. auto.
Qed.

Lemma detach_other_instance_ignored_witness :
  joystick_ pad2_open = Some pad2
  /\ 5%Z <> instance_id pad2
  /\ dispatch no_device (SDL_JOYDEVICEREMOVED 5) pad2_open = pad2_open.
Proof.
  assert (Hj : joystick_ pad2_open = Some pad2) by reflexivity.
  assert (Hne : 5%Z <> instance_id pad2) by (simpl; lia).
  split; [exact Hj|]. split; [exact Hne|].
  exact (proj1 (detach_other_instance_ignored no_device 5 pad2 pad2_open Hj Hne)).
Defined.

(** C9: an axis event changes nothing but index [axis] of the stored axes:
    the other axis values, the buttons, both lengths, the handle and the
    run flag stay; with a device open and the index in range that index
    receives the normalised value.  A button event likewise changes only
    index [button] of the stored buttons, which receives
    [state == SDL_PRESSED]. *)
Theorem event_writes_one_index (this : SimpleJoystick) :
  (forall event,
     let this' := handleAxisEvent event this in
     (forall k, k <> axis event -> axes (getData this') !! k = axes (getData this) !! k)
     /\ buttons (getData this') = buttons (getData this)
     /\ length (axes (getData this')) = length (axes (getData this))
     /\ length (buttons (getData this')) = length (buttons (getData this))
     /\ joystick_ this' = joystick_ this
     /\ running_ this' = running_ this
     /\ (joystick_ this <> None -> axis event < length (axes (getData this)) ->
         axes (getData this') !! axis event = Some (normalizeAxis (value event))))
  /\ (forall event,
        let this' := handleButtonEvent event this in
        (forall k, k <> button event -> buttons (getData this') !! k = buttons (getData this) !! k)
        /\ axes (getData this') = axes (getData this)
        /\ length (buttons (getData this')) = length (buttons (getData this))
        /\ length (axes (getData this')) = length (axes (getData this))
        /\ joystick_ this' = joystick_ this
        /\ running_ this' = running_ this
        /\ (joystick_ this <> None -> button event < length (buttons (getData this)) ->
            buttons (getData this') !! button event = Some (state event =? SDL_PRESSED)%Z)).
Proof.
  split; intros event; cbv zeta; unfold getData.
  - unfold handleAxisEvent. destruct (joystick_ this) as [j|] eqn:Hj.
    + destruct (Nat.ltb_spec (axis event) (length (axes (current_data_ this)))) as [Hlt|Hge];
        simpl; rewrite ?Hj; repeat split; try reflexivity; intros;
        first [ lia | now apply list_lookup_insert_ne | apply length_insert
              | now apply list_lookup_insert_eq ].
    + repeat split; try reflexivity; intros; congruence.
  - unfold handleButtonEvent. destruct (joystick_ this) as [j|] eqn:Hj.
    + destruct (Nat.ltb_spec (button event) (length (buttons (current_data_ this)))) as [Hlt|Hge];
        simpl; rewrite ?Hj; repeat split; try reflexivity; intros;
        first [ lia | now apply list_lookup_insert_ne | apply length_insert
              | now apply list_lookup_insert_eq ].
    + repeat split; try reflexivity; intros; congruence.
Qed.

Lemma event_writes_one_index_witness :
  joystick_ pad2_open <> None
  /\ 1 < length (axes (getData pad2_open))
  /\ axes (getData (handleAxisEvent {| axis := 1; value := 16000 |} pad2_open)) !! 1
     = Some (normalizeAxis 16000)
  /\ axes (getData (handleAxisEvent {| axis := 1; value := 16000 |} pad2_open)) !! 0
     = axes (getData pad2_open) !! 0.
Proof.
  assert (Hj : joystick_ pad2_open <> None) by (simpl; discriminate).
  assert (Hlt : 1 < length (axes (getData pad2_open))) by (vm_compute; lia).
  assert (Hne : 0 <> 1) by lia.
  pose proof (proj1 (event_writes_one_index pad2_open) {| axis := 1; value := 16000 |}) as H.
  split; [exact Hj|]. split; [exact Hlt|]. split.
  - exact (proj2 (proj2 (proj2 (proj2 (proj2 (proj2 H))))) Hj Hlt).
  - exact (proj1 H 0 Hne).
Defined.

(** ** The snapshot consumer *)

Lemma reads_in_bounds_spec (cur prev : list bool) :
  reads_in_bounds cur prev = true <->
  (forall k, cur !! k = Some true -> k < length prev).
Proof.
  revert prev. induction cur as [|c cs IH]; intros prev.
  - simpl. split; [intros _ k Hk; discriminate | reflexivity].
  - destruct prev as [|p ps]; simpl.
    + rewrite andb_true_iff, IH. split.
      * intros [Hc Hcs] [|k] Hk; simpl in Hk.
        -- injection Hk as ->. discriminate.
        -- specialize (Hcs k Hk). simpl in Hcs. lia.
      * intros H. split.
        -- destruct c; [|reflexivity]. specialize (H 0 eq_refl). simpl in H. lia.
        -- intros k Hk. specialize (H (S k) Hk). simpl in H. lia.
    + rewrite IH. split.
      * intros H [|k] Hk; [simpl; lia|]. specialize (H k Hk). simpl. lia.
      * intros H k Hk. specialize (H (S k) Hk). simpl in H. lia.
Qed.

Lemma reads_in_bounds_length (cur prev : list bool) :
  length cur <= length prev -> reads_in_bounds cur prev = true.
Proof.
  intros Hle. apply reads_in_bounds_spec. intros k Hk.
  apply lookup_lt_Some in Hk. lia.
Qed.

Lemma edge_body_spec (cur prev : list bool) (i : nat) :
  i < length cur ->
  (cur !! i = Some true -> i < length prev) ->
  edge_body cur prev i = Some (edge_output cur prev i).
Proof.
  intros Hi Hb. unfold edge_body, edge_output, edge, vector_at.
  destruct (lookup_lt_is_Some_2 cur i Hi) as [c Hc]. rewrite Hc.
  destruct c; [|reflexivity].
  destruct (lookup_lt_is_Some_2 prev i (Hb Hc)) as [p Hp]. rewrite Hp.
  now destruct p.
Qed.

Lemma edge_loop_spec (cur prev : list bool) (n i : nat) :
  i + n <= length cur ->
  (forall k, cur !! k = Some true -> k < length prev) ->
  edge_loop cur prev i n = Some (loop_output cur prev i n).
Proof.
  intros Hn Hb. revert i Hn. induction n as [|n IH]; intros i Hn.
  - reflexivity.
  - cbn [edge_loop]. rewrite edge_body_spec by (auto; lia).
    rewrite IH by lia. reflexivity.
Qed.

(** The loop is defined only where its reads are in bounds. *)
Lemma edge_loop_defined_inv (cur prev : list bool) (n i : nat) (out : list output) :
  edge_loop cur prev i n = Some out ->
  forall k, i <= k < i + n -> cur !! k = Some true -> k < length prev.
Proof.
  revert i out. induction n as [|n IH]; intros i out H k Hk Hc; [lia|].
  cbn [edge_loop] in H.
  destruct (edge_body cur prev i) as [o|] eqn:Hbody; [|discriminate].
  destruct (edge_loop cur prev (S i) n) as [rest|] eqn:Hrest; [|discriminate].
  destruct (Nat.eq_dec k i) as [->|Hne].
  - unfold edge_body, vector_at in Hbody. rewrite Hc in Hbody.
    destruct (prev !! i) eqn:Hp; [|discriminate]. now apply lookup_lt_Some in Hp.
  - apply (IH (S i) rest Hrest k); [lia|exact Hc].
Qed.

Lemma mainTick_stopped (joystick : SimpleJoystick) (last : option (list bool)) :
  isRunning joystick = false -> mainTick joystick last = Some ([], last).
Proof. intros H. unfold mainTick. now rewrite H. Qed.

Lemma mainTick_running (joystick : SimpleJoystick) (last : option (list bool)) :
  isRunning joystick = true ->
  reads_in_bounds (buttons (getData joystick)) (previous_of last (getData joystick)) = true ->
  mainTick joystick last
  = Some (StatusLine (getData joystick)
            :: loop_output (buttons (getData joystick)) (previous_of last (getData joystick))
                 0 (length (buttons (getData joystick))),
          Some (buttons (getData joystick))).
Proof.
  intros Hrun Hb. unfold mainTick. rewrite Hrun. cbv zeta.
  fold (previous_of last (getData joystick)).
  rewrite edge_loop_spec; [reflexivity | lia | now apply reads_in_bounds_spec].
Qed.

Lemma mainTick_undefined (joystick : SimpleJoystick) (last : option (list bool)) :
  isRunning joystick = true ->
  reads_in_bounds (buttons (getData joystick)) (previous_of last (getData joystick)) = false ->
  mainTick joystick last = None.
Proof.
  intros Hrun Hb. unfold mainTick. rewrite Hrun. cbv zeta.
  fold (previous_of last (getData joystick)).
  destruct (edge_loop _ _ 0 _) as [out|] eqn:Hloop; [|reflexivity].
  exfalso. rewrite <- Bool.not_true_iff_false in Hb. apply Hb.
  apply reads_in_bounds_spec. intros k Hk.
  apply (edge_loop_defined_inv _ _ _ _ _ Hloop k); [|exact Hk].
  apply lookup_lt_Some in Hk. lia.
Qed.

Lemma emitted_for_button_command (i k : nat) :
  emitted_for i (button_command k) = if k =? i then button_command i else [].
Proof.
  unfold emitted_for, button_command.
  destruct (Nat.eqb_spec k i) as [->|Hne].
  - destruct (i =? 0), (i =? 1), (i =? 2), (i =? 3); cbn [List.filter];
      rewrite ?Nat.eqb_refl; reflexivity.
  - apply Nat.eqb_neq in Hne.
    destruct (k =? 0), (k =? 1), (k =? 2), (k =? 3); cbn [List.filter];
      rewrite ?Hne; reflexivity.
Qed.

Lemma emitted_for_edge_output (cur prev : list bool) (i k : nat) :
  emitted_for i (edge_output cur prev k) = if k =? i then edge_output cur prev i else [].
Proof.
  unfold edge_output. destruct (Nat.eqb_spec k i) as [->|Hne].
  - destruct (edge cur prev i); [|reflexivity].
    rewrite emitted_for_button_command. now rewrite Nat.eqb_refl.
  - destruct (edge cur prev k); [|reflexivity].
    rewrite emitted_for_button_command. now destruct (Nat.eqb_spec k i).
Qed.

Lemma emitted_for_app (i : nat) (l1 l2 : list output) :
  emitted_for i (l1 ++ l2) = emitted_for i l1 ++ emitted_for i l2.
Proof. apply List.filter_app. Qed.

Lemma emitted_for_loop_output (cur prev : list bool) (i a n : nat) :
  emitted_for i (loop_output cur prev a n)
  = if (a <=? i) && (i <? a + n) then edge_output cur prev i else [].
Proof.
  unfold loop_output. revert a. induction n as [|n IH]; intros a.
  - cbn [seq List.flat_map].
    destruct (Nat.leb_spec a i), (Nat.ltb_spec i (a + 0)); try lia; reflexivity.
  - cbn [seq List.flat_map]. rewrite emitted_for_app, emitted_for_edge_output, IH.
    destruct (Nat.eqb_spec a i), (Nat.leb_spec (S a) i), (Nat.ltb_spec i (S a + n)),
      (Nat.leb_spec a i), (Nat.ltb_spec i (a + S n)); try lia;
      cbn [andb List.app]; rewrite ?List.app_nil_r; reflexivity.
Qed.

Lemma edge_output_out_of_range (cur prev : list bool) (i : nat) :
  length cur <= i -> edge_output cur prev i = [].
Proof.
  intros Hge. unfold edge_output, edge. now rewrite (lookup_ge_None_2 cur i Hge).
Qed.

(** The command lines a defined running pass prints at index [i]. *)
Lemma emitted_for_tick (joystick : SimpleJoystick) (last : option (list bool)) (i : nat) :
  let data := getData joystick in
  emitted_for i (StatusLine data
                   :: loop_output (buttons data) (previous_of last data) 0 (length (buttons data)))
  = edge_output (buttons data) (previous_of last data) i.
Proof.
  intros data. change (emitted_for i (StatusLine data :: ?l)) with (emitted_for i l).
  rewrite emitted_for_loop_output. simpl.
  destruct (Nat.ltb_spec i (length (buttons data))); [reflexivity|].
  symmetry. now apply edge_output_out_of_range.
Qed.

Lemma button_command_length (i : nat) :
  length (button_command i) = if i <? 4 then 1 else 0.
Proof. now destruct i as [|[|[|[|i]]]]. Qed.

Lemma edge_true_iff (cur prev : list bool) (i : nat) :
  edge cur prev i = true <-> (cur !! i = Some true /\ prev !! i = Some false).
Proof.
  unfold edge. destruct (cur !! i) as [[|]|], (prev !! i) as [[|]|];
    split; try discriminate; try (intros [? ?]; discriminate); auto.
Qed.

Lemma edge_same (cur : list bool) (i : nat) : edge cur cur i = false.
Proof. unfold edge. now destruct (cur !! i) as [[|]|]. Qed.

Lemma reads_in_bounds_same (cur : list bool) : reads_in_bounds cur cur = true.
Proof. now apply reads_in_bounds_length. Qed.

Lemma loop_output_no_edge (cur prev : list bool) (i n : nat) :
  (forall k, edge cur prev k = false) -> loop_output cur prev i n = [].
Proof.
  intros H. unfold loop_output. revert i. induction n as [|n IH]; intros i; [reflexivity|].
  cbn [seq List.flat_map]. rewrite IH. unfold edge_output. now rewrite H.
Qed.

(** C1, as stated, fails: with five buttons, none pressed before and
    button 4 pressed now, the running pass prints the status line and no
    command for index 4. *)
Lemma edge_claim_fails_beyond_table : ~ edge_claim_as_stated.
Proof.
  intros H.
  specialize (H (with_buttons [false; false; false; false; true])
                [false; false; false; false; false] 4
                [StatusLine {| axes := []; buttons := [false; false; false; false; true] |}]
                (Some [false; false; false; false; true])
                eq_refl eq_refl eq_refl).
  destruct H as [_ H]. specialize (H (conj eq_refl eq_refl)). discriminate H.
Qed.

(** C1 (amended): on a running pass whose reads of the previous button
    state are in bounds, the pass prints, for every index [i], one command
    when [i < 4], [buttons[i]] is true and [previous[i]] is false, and none
    otherwise: none for a held button, none for a release, none for an
    index of 4 or more. *)
Theorem edge_detection (joystick : SimpleJoystick) (last : option (list bool)) (i : nat) :
  let cur := buttons (getData joystick) in
  let prev := previous_of last (getData joystick) in
  isRunning joystick = true ->
  reads_in_bounds cur prev = true ->
  exists trace,
    mainTick joystick last = Some (trace, Some cur)
    /\ length (emitted_for i trace) = (if (i <? 4) && edge cur prev i then 1 else 0)
    /\ (i < 4 -> (length (emitted_for i trace) = 1
                  <-> (cur !! i = Some true /\ prev !! i = Some false)))
    /\ (prev !! i = Some true -> emitted_for i trace = [])
    /\ (cur !! i = Some false -> emitted_for i trace = [])
    /\ (4 <= i -> emitted_for i trace = []).
Proof.
  intros cur prev Hrun Hb. eexists. split; [now apply mainTick_running|].
  rewrite emitted_for_tick. fold cur prev. unfold edge_output.
  pose proof (button_command_length i) as Hlen.
  pose proof (edge_true_iff cur prev i) as Hedge.
  destruct (edge cur prev i) eqn:E.
  - destruct (proj1 Hedge eq_refl) as [Hc Hp]. rewrite Hlen.
    destruct (Nat.ltb_spec i 4) as [Hlt|Hge]; cbn [andb];
      repeat split; auto; try (intros; congruence); try (intros; lia).
    intros _. destruct i as [|[|[|[|i]]]]; [lia..|reflexivity].
  - rewrite Bool.andb_false_r. repeat split; auto; try discriminate.
    intros [Hc Hp]. assert (false = true) by (apply Hedge; auto). discriminate.
Qed.

Lemma edge_detection_witness :
  isRunning (with_buttons [false; true; false; false]) = true
  /\ reads_in_bounds [false; true; false; false] [false; false; false; false] = true
  /\ exists trace,
       mainTick (with_buttons [false; true; false; false]) (Some [false; false; false; false])
       = Some (trace, Some [false; true; false; false])
       /\ length (emitted_for 1 trace) = 1.
Proof.
  assert (Hrun : isRunning (with_buttons [false; true; false; false]) = true) by reflexivity.
  assert (Hb : reads_in_bounds [false; true; false; false] [false; false; false; false] = true)
    by reflexivity.
  split; [exact Hrun|]. split; [exact Hb|].
  destruct (edge_detection (with_buttons [false; true; false; false])
              (Some [false; false; false; false]) 1 Hrun Hb)
    as (trace & Htick & Hlen & _).
  exists trace. split; [exact Htick | exact Hlen].
Defined.

(** C3: the command table.  Index 0 prints command 3, index 1 command 1,
    index 2 command 2, index 3 command 4, any larger index nothing; and on
    a running pass the commands printed at an index with an edge are the
    table's entry for that index. *)
Theorem command_table :
  button_command 0 = [SendCommand 0 3 "X"]
  /\ button_command 1 = [SendCommand 1 1 "A"]
  /\ button_command 2 = [SendCommand 2 2 "B"]
  /\ button_command 3 = [SendCommand 3 4 "Y"]
  /\ (forall i, 3 < i -> button_command i = [])
  /\ (forall joystick last i,
        isRunning joystick = true ->
        reads_in_bounds (buttons (getData joystick)) (previous_of last (getData joystick)) = true ->
        edge (buttons (getData joystick)) (previous_of last (getData joystick)) i = true ->
        exists trace last',
          mainTick joystick last = Some (trace, last')
          /\ emitted_for i trace = button_command i
          /\ (3 < i -> emitted_for i trace = [])).
Proof.
  assert (Hbig : forall i, 3 < i -> button_command i = []).
  { intros i Hi. destruct i as [|[|[|[|i]]]]; [lia..|reflexivity]. }
  repeat split; try reflexivity; [exact Hbig|].
  intros joystick last i Hrun Hb Hedge. eexists. eexists.
  split; [now apply mainTick_running|].
  rewrite emitted_for_tick. unfold edge_output. rewrite Hedge.
  split; [reflexivity | apply Hbig].
Qed.

Lemma command_table_witness :
  exists trace last',
    mainTick (with_buttons [true; false; false; false; true])
      (Some [false; false; false; false; false]) = Some (trace, last')
    /\ emitted_for 0 trace = [SendCommand 0 3 "X"]
    /\ emitted_for 4 trace = [].
Proof.
  pose proof (proj2 (proj2 (proj2 (proj2 (proj2 command_table))))) as H.
  destruct (H (with_buttons [true; false; false; false; true])
              (Some [false; false; false; false; false]) 0 eq_refl eq_refl eq_refl)
    as (trace & last' & Htick & H0 & _).
  destruct (H (with_buttons [true; false; false; false; true])
              (Some [false; false; false; false; false]) 4 eq_refl eq_refl eq_refl)
    as (trace4 & last4 & Htick4 & _ & H4).
  assert (H34 : 3 < 4) by lia.
  exists trace, last'. split; [exact Htick|]. split; [exact H0|].
  rewrite Htick in Htick4. injection Htick4 as -> _. exact (H4 H34).
Defined.

(** A pass and the run flag.  On a pass where the object is not running
    nothing is printed (no status line, no command) and the previous button
    state is left as it was; on a running pass whose reads are in bounds
    the status line is printed and the previous button state becomes the
    snapshot's buttons, also when no edge fired, in which case the status
    line is all that is printed. *)
Theorem tick_run_state (joystick : SimpleJoystick) (last : option (list bool)) :
  let data := getData joystick in
  (isRunning joystick = false -> mainTick joystick last = Some ([], last))
  /\ (isRunning joystick = true ->
      reads_in_bounds (buttons data) (previous_of last data) = true ->
      exists cmds,
        mainTick joystick last = Some (StatusLine data :: cmds, Some (buttons data))
        /\ ((forall i, edge (buttons data) (previous_of last data) i = false) -> cmds = [])).
Proof.
  intros data. split; [apply mainTick_stopped|].
  intros Hrun Hb. eexists. split; [now apply mainTick_running|].
  apply loop_output_no_edge.
Qed.

Lemma tick_run_state_witness :
  mainTick (stop (with_buttons [true; false])) (Some [false; false])
  = Some ([], Some [false; false])
  /\ exists cmds,
       mainTick (with_buttons [true; false]) (Some [true; true])
       = Some (StatusLine (getData (with_buttons [true; false])) :: cmds, Some [true; false]).
Proof.
  split.
  - exact (proj1 (tick_run_state (stop (with_buttons [true; false])) (Some [false; false]))
             eq_refl).
  - destruct (proj2 (tick_run_state (with_buttons [true; false]) (Some [true; true]))
                eq_refl eq_refl) as (cmds & Htick & _).
    exists cmds. exact Htick.
Defined.

Lemma late_attach_reachable : reachable late_attach.
Proof.
  unfold late_attach. apply drain_reachable; [|apply reach_ctor].
  repeat (apply List.Forall_cons; [exact I|]). apply List.Forall_nil.
Qed.

(** C7: the running pass after a late attach.  The object is constructed
    with no pad and the first running pass initialises the previous button
    state from the empty snapshot.  A pad with four buttons is then
    attached and its button 1 pressed: a reachable object that is running.
    The next pass reads [last_button_state[1]] past the end of the empty
    vector: it is undefined and does not reach the assignment of line 328,
    so on this running pass the previous button state is not updated to
    the snapshot's buttons. *)
Theorem running_pass_after_late_attach :
  reachable late_attach
  /\ isRunning late_attach = true
  /\ mainTick (SimpleJoystick_ctor 0 None) None
     = Some ([StatusLine {| axes := []; buttons := [] |}], Some [])
  /\ buttons (getData late_attach) = [false; true; false; false]
  /\ mainTick late_attach (Some []) = None
  /\ (forall trace,
        mainTick late_attach (Some [])
        <> Some (trace, Some (buttons (getData late_attach)))).
Proof.
  split; [apply late_attach_reachable|].
  assert (Hnone : mainTick late_attach (Some []) = None) by (vm_compute; reflexivity).
  split; [reflexivity|]. split; [reflexivity|]. split; [reflexivity|].
  split; [exact Hnone|]. intros trace. rewrite Hnone. discriminate.
Qed.

(** C10: on the first running pass the previous button state is
    initialised from the snapshot just read, so whatever buttons are
    already pressed, that pass prints the status line and no command, and
    leaves the snapshot's buttons as the previous state. *)
Theorem first_tick_no_phantom_edges (joystick : SimpleJoystick) :
  isRunning joystick = true ->
  previous_of None (getData joystick) = buttons (getData joystick)
  /\ mainTick joystick None
     = Some ([StatusLine (getData joystick)], Some (buttons (getData joystick)))
  /\ (forall i, emitted_for i [StatusLine (getData joystick)] = []).
Proof.
  intros Hrun. split; [reflexivity|]. split; [|reflexivity].
  rewrite mainTick_running by (auto; apply reads_in_bounds_same).
  rewrite loop_output_no_edge; [reflexivity|]. intros k. apply edge_same.
Qed.

Lemma first_tick_no_phantom_edges_witness :
  isRunning (with_buttons [true; true; false]) = true
  /\ mainTick (with_buttons [true; true; false]) None
     = Some ([StatusLine (getData (with_buttons [true; true; false]))],
             Some [true; true; false]).
Proof.
  split; [reflexivity|].
  exact (proj1 (proj2 (first_tick_no_phantom_edges (with_buttons [true; true; false]) eq_refl))).
Defined.

(** ** Worked sessions *)

(** The pad opens with an all-zero snapshot; the axis event stores
    16384500 * 2^-25 (about 0.488) at index 0 and the button event stores
    true at index 1; the next pass prints command 1 once and the pass after
    it, with the button still held, prints no command. *)
Example four_button_session :
  getData pad4_open = {| axes := [zero; zero]; buttons := [false; false; false; false] |}
  /\ getData pad4_pressed
     = {| axes := [S754_finite false 16384500 (-25); zero];
          buttons := [false; true; false; false] |}
  /\ mainTick pad4_pressed (Some (buttons (getData pad4_open)))
     = Some ([StatusLine (getData pad4_pressed); SendCommand 1 1 "A"],
             Some [false; true; false; false])
  /\ mainTick pad4_pressed (Some [false; true; false; false])
     = Some ([StatusLine (getData pad4_pressed)], Some [false; true; false; false]).
Proof. repeat split; vm_compute; reflexivity. Qed.

(** When the first running pass saw no pad, [last_button_state] is empty;
    once a pad is attached and a button pressed, the pass reads
    [last_button_state[1]] past the end of the vector. *)
Example late_attach_reads_past_end :
  mainTick (SimpleJoystick_ctor 0 None) None
  = Some ([StatusLine {| axes := []; buttons := [] |}], Some [])
  /\ buttons (getData late_attach) = [false; true; false; false]
  /\ reads_in_bounds (buttons (getData late_attach)) [] = false
  /\ mainTick late_attach (Some []) = None.
Proof. repeat split; vm_compute; reflexivity. Qed.

(** ** The shape of the normaliser *)

Lemma forall_range_shape_spec (f : Z -> bool) :
  forall_range 16 (-32768) f = true -> forall raw, Sint16 raw -> f raw = true.
Proof.
  intros H raw Hraw. apply (forall_range_spec 16 (-32768) f H).
  unfold Sint16 in Hraw. change (2 ^ Z.of_nat 16)%Z with 65536%Z. lia.
Qed.

Lemma normalizer_shape_checked : forall raw, Sint16 raw -> normalizer_shape_check raw = true.
Proof.
  apply forall_range_shape_spec. vm_compute. reflexivity.
Qed.

Lemma float_eqb_refl (x : float) : float_eqb x x = true.
Proof.
  destruct x as [s|s| |s m e]; simpl; try reflexivity.
  - now destruct s.
  - now destruct s.
  - rewrite Pos.eqb_refl, Z.eqb_refl. now destruct s.
Qed.

Lemma float_eqb_iff (x y : float) : float_eqb x y = true <-> x = y.
Proof.
  split; [apply float_eqb_eq | intros ->; apply float_eqb_refl].
Qed.

Lemma is_pos_zero_iff (v : float) : is_pos_zero v = true <-> v = zero.
Proof.
  split; [apply is_pos_zero_eq | intros ->; reflexivity].
Qed.

Lemma normalizer_shape_facts (raw : Z) :
  Sint16 raw ->
  Bool.eqb (is_pos_zero (normalizeAxis raw)) (Z.abs raw <=? 3276)%Z = true
  /\ Bool.eqb (float_eqb (normalizeAxis raw) minus_one) (raw <=? -32767)%Z = true
  /\ Bool.eqb (float_eqb (normalizeAxis raw) one) (raw =? 32767)%Z = true
  /\ negb (upper_clamp_fires raw) = true
  /\ Bool.eqb (lower_clamp_fires raw) (raw =? -32768)%Z = true
  /\ (raw =? 32767)%Z
      || (Qle_bool (to_Q (normalizeAxis raw)) (to_Q (normalizeAxis (raw + 1)))
          && (is_pos_zero (normalizeAxis raw) && is_pos_zero (normalizeAxis (raw + 1))
              || (raw =? -32768)%Z
              || Qlt_bool (to_Q (normalizeAxis raw)) (to_Q (normalizeAxis (raw + 1)))))
      = true
  /\ (if (raw <? 0)%Z then true
      else float_eqb (normalizeAxis (- raw)) (mirrored (normalizeAxis raw))) = true.
Proof.
  intros Hraw. pose proof (normalizer_shape_checked raw Hraw) as H.
  unfold normalizer_shape_check in H. cbv zeta in H.
  apply andb_prop in H as [H H7]. apply andb_prop in H as [H H6].
  apply andb_prop in H as [H H5]. apply andb_prop in H as [H H4].
  apply andb_prop in H as [H H3]. apply andb_prop in H as [H1 H2].
  repeat split; [exact H1 | exact H2 | exact H3 | exact H4 | exact H5 | exact H6 | exact H7].
Qed.

Lemma eqb_true_iff_both (a b : bool) : Bool.eqb a b = true -> (a = true <-> b = true).
Proof. destruct a, b; simpl; intros H; split; intros; congruence. Qed.

Lemma normalizeAxis_zero_abs (raw : Z) :
  Sint16 raw -> (normalizeAxis raw = zero <-> (Z.abs raw <= 3276)%Z).
Proof.
  intros Hraw. destruct (normalizer_shape_facts raw Hraw) as (Hz & _).
  apply eqb_true_iff_both in Hz.
  rewrite <- is_pos_zero_iff, Hz. apply Z.leb_le.
Qed.

(** X1: the dead zone in raw units.  A 16-bit raw value is stored as
    exactly 0.0 if and only if its magnitude is at most 3276; every other
    raw value is stored with a magnitude of at least 1/10. *)
Theorem normalizeAxis_zero_iff (raw : Z) :
  Sint16 raw ->
  (normalizeAxis raw = zero <-> (Z.abs raw <= 3276)%Z)
  /\ ((3276 < Z.abs raw)%Z -> (1 # 10 <= Qabs (to_Q (normalizeAxis raw)))%Q).
Proof.
  intros Hraw. split; [now apply normalizeAxis_zero_abs|].
  intros Hout. apply Qnot_lt_le. intros Hlt.
  destruct (normalizeAxis_axis_ok raw Hraw) as (_ & _ & _ & Hdead & _).
  apply Hdead in Hlt. apply (normalizeAxis_zero_abs raw Hraw) in Hlt. lia.
Qed.

Lemma normalizeAxis_zero_iff_witness :
  Sint16 3276 /\ normalizeAxis 3276 = zero /\ Sint16 3277 /\ normalizeAxis 3277 <> zero.
Proof.
  assert (H1 : Sint16 3276) by (unfold Sint16; lia).
  assert (H2 : Sint16 3277) by (unfold Sint16; lia).
  split; [exact H1|]. split.
  - apply (proj2 (proj1 (normalizeAxis_zero_iff 3276 H1))). simpl. lia.
  - split; [exact H2|]. intros Hz.
    pose proof (proj1 (proj1 (normalizeAxis_zero_iff 3277 H2)) Hz) as Hle. simpl in Hle. lia.
Defined.

(** X2: saturation.  The stored value is -1.0 exactly for the raw values
    -32768 and -32767, and 1.0 exactly for the raw value 32767. *)
Theorem normalizeAxis_saturation (raw : Z) :
  Sint16 raw ->
  (normalizeAxis raw = minus_one <-> (raw <= -32767)%Z)
  /\ (normalizeAxis raw = one <-> raw = 32767%Z).
Proof.
  intros Hraw. destruct (normalizer_shape_facts raw Hraw) as (_ & Hm & Hp & _).
  apply eqb_true_iff_both in Hm. apply eqb_true_iff_both in Hp.
  split.
  - rewrite <- float_eqb_iff, Hm. apply Z.leb_le.
  - rewrite <- float_eqb_iff, Hp. apply Z.eqb_eq.
Qed.

Lemma normalizeAxis_saturation_witness :
  Sint16 (-32768) /\ normalizeAxis (-32768) = minus_one.
Proof.
  assert (H : Sint16 (-32768)) by (unfold Sint16; lia).
  split; [exact H|].
  apply (proj2 (proj1 (normalizeAxis_saturation (-32768) H))). lia.
Defined.

(** X3: which clamp does any work.  For a 16-bit raw value the test
    [value > 1.0f] is never true, and the test [value < -1.0f] is true for
    the raw value -32768 only. *)
Theorem clamp_tests_on_Sint16 (raw : Z) :
  Sint16 raw ->
  upper_clamp_fires raw = false
  /\ (lower_clamp_fires raw = true <-> raw = (-32768)%Z).
Proof.
  intros Hraw. destruct (normalizer_shape_facts raw Hraw) as (_ & _ & _ & Hu & Hl & _).
  split.
  - now apply Bool.negb_true_iff in Hu.
  - apply eqb_true_iff_both in Hl. rewrite Hl. apply Z.eqb_eq.
Qed.

Lemma clamp_tests_on_Sint16_witness :
  Sint16 32767 /\ upper_clamp_fires 32767 = false /\ lower_clamp_fires 32767 <> true.
Proof.
  assert (H : Sint16 32767) by (unfold Sint16; lia).
  split; [exact H|]. split.
  - exact (proj1 (clamp_tests_on_Sint16 32767 H)).
  - intros Hl. pose proof (proj1 (proj2 (clamp_tests_on_Sint16 32767 H)) Hl). lia.
Defined.

Lemma to_Q_mirrored (v : float) : (to_Q (mirrored v) == - to_Q v)%Q.
Proof.
  unfold mirrored. destruct v as [[|]|s| |s m e]; simpl; try reflexivity.
  destruct s; simpl; destruct (0 <=? e)%Z; unfold Qeq, Qopp, inject_Z; simpl; lia.
Qed.

(** One step of the raw value. *)
Lemma normalizeAxis_step (raw : Z) :
  Sint16 raw -> Sint16 (raw + 1) ->
  (to_Q (normalizeAxis raw) <= to_Q (normalizeAxis (raw + 1)))%Q
  /\ ((-32767 <= raw)%Z ->
      ~ (normalizeAxis raw = zero /\ normalizeAxis (raw + 1) = zero) ->
      (to_Q (normalizeAxis raw) < to_Q (normalizeAxis (raw + 1)))%Q).
Proof.
  intros Hraw Hnext.
  destruct (normalizer_shape_facts raw Hraw) as (_ & _ & _ & _ & _ & Hstep & _).
  apply orb_prop in Hstep as [Hstep|Hstep].
  { apply Z.eqb_eq in Hstep. unfold Sint16 in Hnext. lia. }
  apply andb_prop in Hstep as [Hle Hstrict].
  split; [now apply Qle_bool_iff|].
  intros Hlow Hnz.
  apply orb_prop in Hstrict as [Hstrict|Hstrict]; [|now apply Qlt_bool_iff].
  apply orb_prop in Hstrict as [Hstrict|Hstrict].
  - apply andb_prop in Hstrict as [Ha Hb]. exfalso. apply Hnz.
    split; now apply is_pos_zero_eq.
  - apply Z.eqb_eq in Hstrict. lia.
Qed.

Lemma normalizeAxis_monotone_steps (n : nat) (raw : Z) :
  Sint16 raw -> Sint16 (raw + Z.of_nat n) ->
  (to_Q (normalizeAxis raw) <= to_Q (normalizeAxis (raw + Z.of_nat n)))%Q.
Proof.
  induction n as [|n IH]; intros Hraw Hend.
  - rewrite Z.add_0_r. apply Qle_refl.
  - assert (Hmid : Sint16 (raw + Z.of_nat n)) by (unfold Sint16 in *; lia).
    apply Qle_trans with (to_Q (normalizeAxis (raw + Z.of_nat n))); [now apply IH|].
    replace (raw + Z.of_nat (S n))%Z with (raw + Z.of_nat n + 1)%Z by lia.
    apply normalizeAxis_step; [exact Hmid|].
    replace (raw + Z.of_nat n + 1)%Z with (raw + Z.of_nat (S n))%Z by lia. exact Hend.
Qed.

Lemma normalizeAxis_le (raw1 raw2 : Z) :
  Sint16 raw1 -> Sint16 raw2 -> (raw1 <= raw2)%Z ->
  (to_Q (normalizeAxis raw1) <= to_Q (normalizeAxis raw2))%Q.
Proof.
  intros H1 H2 Hle.
  replace raw2 with (raw1 + Z.of_nat (Z.to_nat (raw2 - raw1)))%Z by lia.
  apply normalizeAxis_monotone_steps; [exact H1|].
  replace (raw1 + Z.of_nat (Z.to_nat (raw2 - raw1)))%Z with raw2 by lia. exact H2.
Qed.

(** X4: the normaliser is monotone.  A larger raw value never gives a
    smaller stored value, and it gives a strictly larger one unless both
    raw values lie in the dead zone or the smaller one is -32768 (which
    stores the same -1.0 as -32767). *)
Theorem normalizeAxis_monotone (raw1 raw2 : Z) :
  Sint16 raw1 -> Sint16 raw2 ->
  ((raw1 <= raw2)%Z -> (to_Q (normalizeAxis raw1) <= to_Q (normalizeAxis raw2))%Q)
  /\ ((raw1 < raw2)%Z -> (-32767 <= raw1)%Z ->
      ~ ((Z.abs raw1 <= 3276)%Z /\ (Z.abs raw2 <= 3276)%Z) ->
      (to_Q (normalizeAxis raw1) < to_Q (normalizeAxis raw2))%Q).
Proof.
  intros H1 H2. split; [now apply normalizeAxis_le|].
  intros Hlt Hlow Hdead.
  destruct (Z_le_gt_dec (Z.abs raw1) 3276) as [Hin|Hout].
  - (* the last step, into raw2, is strict *)
    assert (Hp : Sint16 (raw2 - 1)) by (unfold Sint16 in *; lia).
    apply Qle_lt_trans with (to_Q (normalizeAxis (raw2 - 1))).
    + apply normalizeAxis_le; [exact H1 | exact Hp | lia].
    + replace raw2 with (raw2 - 1 + 1)%Z at 2 by lia.
      apply normalizeAxis_step; [exact Hp | | lia |].
      * replace (raw2 - 1 + 1)%Z with raw2 by lia. exact H2.
      * intros [_ Hz]. replace (raw2 - 1 + 1)%Z with raw2 in Hz by lia.
        apply (normalizeAxis_zero_abs raw2 H2) in Hz. auto.
  - (* the first step, out of raw1, is strict *)
    assert (Hn : Sint16 (raw1 + 1)) by (unfold Sint16 in *; lia).
    apply Qlt_le_trans with (to_Q (normalizeAxis (raw1 + 1))).
    + apply normalizeAxis_step; [exact H1 | exact Hn | exact Hlow |].
      intros [Hz _]. apply (normalizeAxis_zero_abs raw1 H1) in Hz. lia.
    + apply normalizeAxis_le; [exact Hn | exact H2 | lia].
Qed.

Lemma normalizeAxis_monotone_witness :
  Sint16 3000 /\ Sint16 16000
  /\ (to_Q (normalizeAxis 3000) < to_Q (normalizeAxis 16000))%Q.
Proof.
  assert (H1 : Sint16 3000) by (unfold Sint16; lia).
  assert (H2 : Sint16 16000) by (unfold Sint16; lia).
  split; [exact H1|]. split; [exact H2|].
  apply (proj2 (normalizeAxis_monotone 3000 16000 H1 H2)); simpl; lia.
Defined.

Lemma normalizeAxis_not_neg_zero (raw : Z) :
  Sint16 raw -> normalizeAxis raw <> S754_zero true.
Proof.
  intros Hraw Hv. destruct (normalizeAxis_axis_ok raw Hraw) as (_ & _ & _ & _ & Hdead).
  rewrite Hv in Hdead. specialize (Hdead eq_refl). discriminate.
Qed.

Lemma mirrored_involutive (v : float) : v <> S754_zero true -> mirrored (mirrored v) = v.
Proof.
  destruct v as [[|]|s| |s m e]; intros Hv; try reflexivity.
  - now contradiction Hv.
  - now destruct s.
  - now destruct s.
Qed.

Lemma normalizeAxis_mirror (raw : Z) :
  (-32767 <= raw <= 32767)%Z ->
  normalizeAxis (- raw) = mirrored (normalizeAxis raw).
Proof.
  intros Hr. destruct (Z.ltb_spec raw 0) as [Hneg|Hpos].
  - assert (Hraw' : Sint16 (- raw)) by (unfold Sint16; lia).
    destruct (normalizer_shape_facts (- raw) Hraw') as (_ & _ & _ & _ & _ & _ & Hm).
    destruct (Z.ltb_spec (- raw) 0) as [Hlt|_]; [lia|].
    apply float_eqb_eq in Hm. rewrite Z.opp_involutive in Hm.
    rewrite Hm. symmetry. apply mirrored_involutive.
    now apply normalizeAxis_not_neg_zero.
  - assert (Hraw : Sint16 raw) by (unfold Sint16; lia).
    destruct (normalizer_shape_facts raw Hraw) as (_ & _ & _ & _ & _ & _ & Hm).
    destruct (Z.ltb_spec raw 0) as [Hlt|_]; [lia|].
    now apply float_eqb_eq in Hm.
Qed.

(** X5: the normaliser is odd away from -32768.  For a raw value from
    -32767 to 32767, negating the raw value negates the stored value (0.0
    stays 0.0, never -0.0); -32768 is the one value without a mirror image:
    it stores -1.0, like -32767. *)
Theorem normalizeAxis_odd (raw : Z) :
  (-32767 <= raw <= 32767)%Z ->
  normalizeAxis (- raw) = mirrored (normalizeAxis raw)
  /\ (to_Q (normalizeAxis (- raw)) == - to_Q (normalizeAxis raw))%Q
  /\ normalizeAxis (- raw) <> S754_zero true.
Proof.
  intros Hr. pose proof (normalizeAxis_mirror raw Hr) as Hodd.
  split; [exact Hodd|]. split.
  - rewrite Hodd. apply to_Q_mirrored.
  - apply normalizeAxis_not_neg_zero. unfold Sint16. lia.
Qed.

Lemma normalizeAxis_odd_witness :
  (-32767 <= 16000 <= 32767)%Z
  /\ normalizeAxis (-16000) = S754_finite true 16384500 (-25).
Proof.
  assert (H : (-32767 <= 16000 <= 32767)%Z) by lia.
  split; [exact H|].
  exact (proj1 (normalizeAxis_odd 16000 H)).
Defined.

(** ** The poller and the store *)

Lemma SimpleJoystick_eta (this : SimpleJoystick) :
  {| joystick_ := joystick_ this;
     current_data_ := {| axes := axes (current_data_ this);
                         buttons := buttons (current_data_ this) |};
     running_ := running_ this |} = this.
Proof. destruct this as [j [a b] r]. reflexivity. Qed.

Lemma handleAxisEvent_frame event this :
  joystick_ (handleAxisEvent event this) = joystick_ this
  /\ running_ (handleAxisEvent event this) = running_ this
  /\ buttons (current_data_ (handleAxisEvent event this)) = buttons (current_data_ this)
  /\ length (axes (current_data_ (handleAxisEvent event this)))
     = length (axes (current_data_ this)).
Proof.
  unfold handleAxisEvent. destruct (joystick_ this) eqn:Hj; [|now rewrite Hj].
  destruct (axis event <? length (axes (current_data_ this))); simpl;
    rewrite ?Hj, ?length_insert; auto.
Qed.

Lemma handleButtonEvent_frame event this :
  joystick_ (handleButtonEvent event this) = joystick_ this
  /\ running_ (handleButtonEvent event this) = running_ this
  /\ axes (current_data_ (handleButtonEvent event this)) = axes (current_data_ this)
  /\ length (buttons (current_data_ (handleButtonEvent event this)))
     = length (buttons (current_data_ this)).
Proof.
  unfold handleButtonEvent. destruct (joystick_ this) eqn:Hj; [|now rewrite Hj].
  destruct (button event <? length (buttons (current_data_ this))); simpl;
    rewrite ?Hj, ?length_insert; auto.
Qed.

Lemma initJoystick_handle (this : SimpleJoystick) :
  joystick_ (initJoystick this) = joystick_ this.
Proof. unfold initJoystick. destruct (joystick_ this) eqn:Hj; simpl; congruence. Qed.

Lemma dispatch_lengths_match open event this :
  lengths_match this -> lengths_match (dispatch open event this).
Proof.
  unfold lengths_match, getData. intros H.
  destruct event as [jaxis|jbutton|jbutton|which|which|]; cbn [dispatch].
  - destruct (handleAxisEvent_frame jaxis this) as (-> & _ & -> & ->). exact H.
  - destruct (handleButtonEvent_frame jbutton this) as (-> & _ & -> & ->). exact H.
  - destruct (handleButtonEvent_frame jbutton this) as (-> & _ & -> & ->). exact H.
  - destruct (joystick_ this) eqn:Hj; [now rewrite Hj|]. cbv zeta.
    change (joystick_ (set_joystick (open which) this)) with (open which).
    destruct (open which) as [j'|] eqn:Ho.
    + intros j Hj'. rewrite initJoystick_handle in Hj'.
      apply (initJoystick_lengths _ _ Hj').
    + intros j Hj'. cbn [set_joystick joystick_] in Hj'. congruence.
  - destruct (joystick_ this) as [j|] eqn:Hj; [|now rewrite Hj].
    destruct (which =? instance_id j)%Z; [discriminate | now rewrite Hj].
  - exact H.
Qed.

(** X6: the store has the shape of the open device.  In every reachable
    state with a device open, the stored axes and buttons have exactly the
    lengths that device reported when it was opened; axis and button events
    never change them. *)
Theorem store_lengths_match_device (this : SimpleJoystick) (j : SDL_Joystick) :
  reachable this ->
  joystick_ this = Some j ->
  length (axes (getData this)) = num_axes j
  /\ length (buttons (getData this)) = num_buttons j.
Proof.
  intros Hr. revert j. change (lengths_match this).
  induction Hr as [num opened|open event this Hr IH Hwf|this Hr IH].
  - unfold lengths_match, SimpleJoystick_ctor. intros j.
    destruct (0 <? num)%Z; [|discriminate].
    destruct opened as [j'|]; [|discriminate]. simpl. intros [= <-].
    unfold getData, vector_resize. simpl. now rewrite !length_resize.
  - now apply dispatch_lengths_match.
  - exact IH.
Qed.

Lemma store_lengths_match_device_witness :
  reachable replugged /\ joystick_ replugged = Some pad2
  /\ length (axes (getData replugged)) = 2 /\ length (buttons (getData replugged)) = 2.
Proof.
  assert (Hr : reachable replugged)
    by (apply drain_reachable; [apply replug_queue_wf | apply reach_ctor]).
  assert (Hj : joystick_ replugged = Some pad2) by reflexivity.
  split; [exact Hr|]. split; [exact Hj|].
  exact (store_lengths_match_device replugged pad2 Hr Hj).
Defined.

(** X7: the first open.  An object constructed with a device present reads
    as all 0.0 and all false with that device's counts; one constructed
    without a device reads as empty; and on a store that is still empty a
    device-added event whose open succeeds leaves the device's counts of
    0.0 and false. *)
Theorem first_open_reads_default :
  (forall num j, (0 < num)%Z ->
     joystick_ (SimpleJoystick_ctor num (Some j)) = Some j
     /\ getData (SimpleJoystick_ctor num (Some j)) = default_snapshot j)
  /\ (forall num opened, (num <= 0)%Z \/ opened = None ->
        joystick_ (SimpleJoystick_ctor num opened) = None
        /\ getData (SimpleJoystick_ctor num opened) = {| axes := []; buttons := [] |})
  /\ (forall open which this j,
        joystick_ this = None ->
        getData this = {| axes := []; buttons := [] |} ->
        open which = Some j ->
        joystick_ (dispatch open (SDL_JOYDEVICEADDED which) this) = Some j
        /\ getData (dispatch open (SDL_JOYDEVICEADDED which) this) = default_snapshot j).
Proof.
  split; [|split].
  - intros num j Hnum. unfold SimpleJoystick_ctor.
    destruct (Z.ltb_spec 0 num) as [_|Hle]; [|lia].
    split; [reflexivity|]. unfold getData, default_snapshot, vector_resize. simpl.
    now rewrite !resize_nil.
  - intros num opened H. unfold SimpleJoystick_ctor.
    destruct (Z.ltb_spec 0 num) as [Hlt|_].
    + destruct H as [H| ->]; [lia|]. split; reflexivity.
    + split; reflexivity.
  - intros open which this j Hj Hd Ho. unfold getData in *. cbn [dispatch].
    rewrite Hj. cbv zeta. change (joystick_ (set_joystick (open which) this)) with (open which).
    rewrite Ho. unfold initJoystick. cbn [set_joystick joystick_ current_data_].
    rewrite ?Ho, Hd. split; [reflexivity|].
    unfold default_snapshot, vector_resize. cbn [current_data_ axes buttons].
    now rewrite !resize_nil.
Qed.

Lemma first_open_reads_default_witness :
  (0 < 1)%Z
  /\ getData (SimpleJoystick_ctor 1 (Some pad4))
     = {| axes := [zero; zero]; buttons := [false; false; false; false] |}
  /\ getData (dispatch (plugged pad2) (SDL_JOYDEVICEADDED 0) (SimpleJoystick_ctor 0 None))
     = {| axes := [zero; zero]; buttons := [false; false] |}.
Proof.
  assert (H : (0 < 1)%Z) by lia.
  split; [exact H|]. split.
  - exact (proj2 (proj1 first_open_reads_default 1%Z pad4 H)).
  - exact (proj2 (proj2 (proj2 first_open_reads_default) (plugged pad2) 0%Z
                    (SimpleJoystick_ctor 0 None) pad2 eq_refl eq_refl eq_refl)).
Defined.

(** X8: a re-open keeps what it finds.  When a device-added event is
    handled with no device open and the open succeeds, every index below
    both the old length and the new count keeps its stored value, every
    other index below the new count holds 0.0 (false for a button), and a
    store whose lengths already equal the new counts is left exactly as it
    was. *)
Theorem reopen_keeps_old_values
    (open : Z -> option SDL_Joystick) (which : Z) (this : SimpleJoystick) (j : SDL_Joystick) :
  joystick_ this = None ->
  open which = Some j ->
  let this' := dispatch open (SDL_JOYDEVICEADDED which) this in
  (forall i, i < num_axes j ->
     axes (getData this') !! i = Some (default zero (axes (getData this) !! i)))
  /\ (forall i, i < num_buttons j ->
        buttons (getData this') !! i = Some (default false (buttons (getData this) !! i)))
  /\ (length (axes (getData this)) = num_axes j ->
      length (buttons (getData this)) = num_buttons j ->
      getData this' = getData this).
Proof.
  intros Hj Ho this'. subst this'. unfold getData. cbn [dispatch].
  rewrite Hj. cbv zeta. change (joystick_ (set_joystick (open which) this)) with (open which).
  rewrite Ho. unfold initJoystick. cbn [set_joystick joystick_ current_data_].
  rewrite ?Ho. cbn [current_data_ axes buttons]. unfold vector_resize.
  split; [|split].
  - intros i Hi. destruct (axes (current_data_ this) !! i) as [v|] eqn:Hv.
    + rewrite lookup_resize by (eauto using lookup_lt_Some). now rewrite Hv.
    + apply lookup_ge_None_1 in Hv. now rewrite lookup_resize_new.
  - intros i Hi. destruct (buttons (current_data_ this) !! i) as [v|] eqn:Hv.
    + rewrite lookup_resize by (eauto using lookup_lt_Some). now rewrite Hv.
    + apply lookup_ge_None_1 in Hv. now rewrite lookup_resize_new.
  - intros Ha Hb. rewrite <- Ha, <- Hb, !resize_all. now destruct (current_data_ this).
Qed.

Lemma reopen_keeps_old_values_witness :
  joystick_ pad1_unplugged = None
  /\ plugged pad1 0%Z = Some pad1
  /\ length (axes (getData pad1_unplugged)) = num_axes pad1
  /\ length (buttons (getData pad1_unplugged)) = num_buttons pad1
  /\ getData (dispatch (plugged pad1) (SDL_JOYDEVICEADDED 0) pad1_unplugged)
     = {| axes := [one]; buttons := [false] |}.
Proof.
  assert (Hj : joystick_ pad1_unplugged = None) by reflexivity.
  assert (Ho : plugged pad1 0%Z = Some pad1) by reflexivity.
  assert (Ha : length (axes (getData pad1_unplugged)) = num_axes pad1) by reflexivity.
  assert (Hb : length (buttons (getData pad1_unplugged)) = num_buttons pad1) by reflexivity.
  split; [exact Hj|]. split; [exact Ho|]. split; [exact Ha|]. split; [exact Hb|].
  exact (proj2 (proj2 (reopen_keeps_old_values (plugged pad1) 0%Z pad1_unplugged pad1 Hj Ho))
           Ha Hb).
Defined.

Lemma dispatch_no_device open event this :
  joystick_ this = None -> is_device_added event = false -> dispatch open event this = this.
Proof.
  intros Hj Hev. destruct event as [jaxis|jbutton|jbutton|which|which|]; cbn [dispatch];
    try discriminate; unfold handleAxisEvent, handleButtonEvent; rewrite ?Hj; reflexivity.
Qed.

(** X9: with no device open, the poller drops everything but an attach.
    Any queue of events that holds no device-added event (axis motion,
    button down and up, device removed, anything else) leaves the object,
    and so the stored snapshot, exactly as it was. *)
Theorem no_device_drops_events
    (queue : list ((Z -> option SDL_Joystick) * SDL_Event)) (this : SimpleJoystick) :
  joystick_ this = None ->
  Forall (fun oe => is_device_added (snd oe) = false) queue ->
  drain queue this = this.
Proof.
  intros Hj Hq. induction Hq as [|[open event] rest Hev _ IH]; [reflexivity|].
  cbn [drain]. rewrite dispatch_no_device by assumption. exact IH.
Qed.

Lemma no_device_drops_events_witness :
  joystick_ pad1_unplugged = None
  /\ drain [ (plugged pad1, SDL_JOYAXISMOTION {| axis := 0; value := -32768 |});
             (plugged pad1, SDL_JOYBUTTONDOWN {| button := 0; state := SDL_PRESSED |});
             (plugged pad1, SDL_JOYDEVICEREMOVED 0) ] pad1_unplugged
     = pad1_unplugged.
Proof.
  assert (Hj : joystick_ pad1_unplugged = None) by reflexivity.
  split; [exact Hj|].
  apply (no_device_drops_events _ pad1_unplugged Hj).
  repeat (apply List.Forall_cons; [reflexivity|]). apply List.Forall_nil.
Defined.

Lemma dispatch_keeps_handle open event this j :
  joystick_ this = Some j ->
  event <> SDL_JOYDEVICEREMOVED (instance_id j) ->
  joystick_ (dispatch open event this) = Some j.
Proof.
  intros Hj Hne. destruct event as [jaxis|jbutton|jbutton|which|which|]; cbn [dispatch].
  - now destruct (handleAxisEvent_frame jaxis this) as (-> & _).
  - now destruct (handleButtonEvent_frame jbutton this) as (-> & _).
  - now destruct (handleButtonEvent_frame jbutton this) as (-> & _).
  - now rewrite Hj.
  - rewrite Hj. destruct (Z.eqb_spec which (instance_id j)) as [->|_]; [|exact Hj].
    now contradiction Hne.
  - exact Hj.
Qed.

(** X10: an open handle is only ever closed, never replaced.  While a
    device is open a device-added event changes nothing at all; a
    device-removed event carrying its instance id clears the handle and
    leaves the stored snapshot in place; after any other event the same
    device is still open. *)
Theorem open_handle_stability
    (open : Z -> option SDL_Joystick) (this : SimpleJoystick) (j : SDL_Joystick) :
  joystick_ this = Some j ->
  (forall which, dispatch open (SDL_JOYDEVICEADDED which) this = this)
  /\ (joystick_ (dispatch open (SDL_JOYDEVICEREMOVED (instance_id j)) this) = None
      /\ getData (dispatch open (SDL_JOYDEVICEREMOVED (instance_id j)) this) = getData this)
  /\ (forall event, event <> SDL_JOYDEVICEREMOVED (instance_id j) ->
        joystick_ (dispatch open event this) = Some j).
Proof.
  intros Hj. split; [|split].
  - intros which. cbn [dispatch]. now rewrite Hj.
  - cbn [dispatch]. rewrite Hj, Z.eqb_refl. split; reflexivity.
  - intros event Hne. now apply dispatch_keeps_handle.
Qed.

Lemma open_handle_stability_witness :
  joystick_ pad1_open = Some pad1
  /\ dispatch (plugged pad2) (SDL_JOYDEVICEADDED 0) pad1_open = pad1_open
  /\ joystick_ (dispatch no_device (SDL_JOYDEVICEREMOVED 0) pad1_open) = None.
Proof.
  assert (Hj : joystick_ pad1_open = Some pad1) by reflexivity.
  split; [exact Hj|]. split.
  - exact (proj1 (open_handle_stability (plugged pad2) pad1_open pad1 Hj) 0%Z).
  - exact (proj1 (proj1 (proj2 (open_handle_stability no_device pad1_open pad1 Hj)))).
Defined.

Lemma handleAxisEvent_twice (this : SimpleJoystick) (e1 e2 : SDL_JoyAxisEvent) :
  axis e1 = axis e2 ->
  handleAxisEvent e2 (handleAxisEvent e1 this) = handleAxisEvent e2 this.
Proof.
  intros He. unfold handleAxisEvent.
  destruct (joystick_ this) as [j|] eqn:Hj; [|now rewrite Hj].
  rewrite He.
  destruct (axis e2 <? length (axes (current_data_ this))) eqn:Hlt;
    cbn [joystick_ current_data_ axes buttons running_]; rewrite ?Hj.
  - rewrite length_insert, Hlt, list_insert_insert_eq. reflexivity.
  - now rewrite Hlt.
Qed.

Lemma handleButtonEvent_twice (this : SimpleJoystick) (e1 e2 : SDL_JoyButtonEvent) :
  button e1 = button e2 ->
  handleButtonEvent e2 (handleButtonEvent e1 this) = handleButtonEvent e2 this.
Proof.
  intros He. unfold handleButtonEvent.
  destruct (joystick_ this) as [j|] eqn:Hj; [|now rewrite Hj].
  rewrite He.
  destruct (button e2 <? length (buttons (current_data_ this))) eqn:Hlt;
    cbn [joystick_ current_data_ axes buttons running_]; rewrite ?Hj.
  - rewrite length_insert, Hlt, list_insert_insert_eq. reflexivity.
  - now rewrite Hlt.
Qed.

(** X11: the last write to an index wins.  Two axis events for the same
    axis leave the store as the second alone would, and likewise two button
    events for the same button; handling an event twice is the same as
    handling it once. *)
Theorem last_event_wins (this : SimpleJoystick) :
  (forall e1 e2, axis e1 = axis e2 ->
     handleAxisEvent e2 (handleAxisEvent e1 this) = handleAxisEvent e2 this)
  /\ (forall e1 e2, button e1 = button e2 ->
        handleButtonEvent e2 (handleButtonEvent e1 this) = handleButtonEvent e2 this)
  /\ (forall e, handleAxisEvent e (handleAxisEvent e this) = handleAxisEvent e this)
  /\ (forall e, handleButtonEvent e (handleButtonEvent e this) = handleButtonEvent e this).
Proof.
  split; [intros; now apply handleAxisEvent_twice|].
  split; [intros; now apply handleButtonEvent_twice|].
  split; intros e; [now apply handleAxisEvent_twice | now apply handleButtonEvent_twice].
Qed.

Lemma last_event_wins_witness :
  axis {| axis := 1; value := 5 |} = axis {| axis := 1; value := 16000 |}
  /\ axes (getData (handleAxisEvent {| axis := 1; value := 16000 |}
                      (handleAxisEvent {| axis := 1; value := 5 |} pad2_open)))
     = [zero; S754_finite false 16384500 (-25)].
Proof.
  assert (He : axis {| axis := 1; value := 5 |} = axis {| axis := 1; value := 16000 |})
    by reflexivity.
  split; [exact He|].
  rewrite (proj1 (last_event_wins pad2_open) _ _ He). reflexivity.
Defined.

(** X12: writes to different places commute.  Axis events for different
    axes, button events for different buttons, and an axis event with a
    button event can be handled in either order with the same result. *)
Theorem events_commute (this : SimpleJoystick) :
  (forall e1 e2, axis e1 <> axis e2 ->
     handleAxisEvent e1 (handleAxisEvent e2 this) = handleAxisEvent e2 (handleAxisEvent e1 this))
  /\ (forall e1 e2, button e1 <> button e2 ->
        handleButtonEvent e1 (handleButtonEvent e2 this)
        = handleButtonEvent e2 (handleButtonEvent e1 this))
  /\ (forall ea eb,
        handleAxisEvent ea (handleButtonEvent eb this)
        = handleButtonEvent eb (handleAxisEvent ea this)).
Proof.
  split; [|split].
  - intros e1 e2 Hne. unfold handleAxisEvent.
    destruct (joystick_ this) as [j|] eqn:Hj; [|now rewrite Hj].
    destruct (axis e1 <? length (axes (current_data_ this))) eqn:H1,
             (axis e2 <? length (axes (current_data_ this))) eqn:H2;
      cbn [joystick_ current_data_ axes buttons running_];
      rewrite ?Hj; cbn [joystick_ current_data_ axes buttons running_];
      rewrite ?length_insert, ?H1, ?H2; try reflexivity.
    cbn [joystick_ current_data_ axes buttons running_].
    now rewrite list_insert_insert_ne.
  - intros e1 e2 Hne. unfold handleButtonEvent.
    destruct (joystick_ this) as [j|] eqn:Hj; [|now rewrite Hj].
    destruct (button e1 <? length (buttons (current_data_ this))) eqn:H1,
             (button e2 <? length (buttons (current_data_ this))) eqn:H2;
      cbn [joystick_ current_data_ axes buttons running_];
      rewrite ?Hj; cbn [joystick_ current_data_ axes buttons running_];
      rewrite ?length_insert, ?H1, ?H2; try reflexivity.
    cbn [joystick_ current_data_ axes buttons running_].
    now rewrite list_insert_insert_ne.
  - intros ea eb. unfold handleAxisEvent, handleButtonEvent.
    destruct (joystick_ this) as [j|] eqn:Hj; [|now rewrite Hj].
    destruct (axis ea <? length (axes (current_data_ this))) eqn:H1,
             (button eb <? length (buttons (current_data_ this))) eqn:H2;
      cbn [joystick_ current_data_ axes buttons running_];
      rewrite ?Hj; cbn [joystick_ current_data_ axes buttons running_];
      rewrite ?H1, ?H2; reflexivity.
Qed.

Lemma events_commute_witness :
  axis {| axis := 0; value := 16000 |} <> axis {| axis := 1; value := -16000 |}
  /\ handleAxisEvent {| axis := 0; value := 16000 |}
       (handleAxisEvent {| axis := 1; value := -16000 |} pad2_open)
     = handleAxisEvent {| axis := 1; value := -16000 |}
         (handleAxisEvent {| axis := 0; value := 16000 |} pad2_open).
Proof.
  assert (Hne : axis {| axis := 0; value := 16000 |} <> axis {| axis := 1; value := -16000 |})
    by (simpl; lia).
  split; [exact Hne|].
  exact (proj1 (events_commute pad2_open) _ _ Hne).
Defined.

(** X13: a press that is released before it is read leaves no trace.  With
    a button stored as released, handling its press and then its release
    puts the object back exactly as it was, so the consumer's next pass is
    the pass it would have made without them: a press shorter than the gap
    between two passes produces no command. *)
Theorem press_release_round_trip
    (this : SimpleJoystick) (j : nat) (o1 o2 : Z -> option SDL_Joystick)
    (last : option (list bool)) :
  buttons (getData this) !! j = Some false ->
  drain [ (o1, SDL_JOYBUTTONDOWN {| button := j; state := SDL_PRESSED |});
          (o2, SDL_JOYBUTTONUP {| button := j; state := SDL_RELEASED |}) ] this = this
  /\ mainTick (drain [ (o1, SDL_JOYBUTTONDOWN {| button := j; state := SDL_PRESSED |});
                       (o2, SDL_JOYBUTTONUP {| button := j; state := SDL_RELEASED |}) ] this)
       last
     = mainTick this last.
Proof.
  intros Hb. unfold getData in Hb.
  assert (Heq : drain [ (o1, SDL_JOYBUTTONDOWN {| button := j; state := SDL_PRESSED |});
                        (o2, SDL_JOYBUTTONUP {| button := j; state := SDL_RELEASED |}) ] this
                = this).
  { cbn [drain dispatch].
    rewrite handleButtonEvent_twice by reflexivity.
    unfold handleButtonEvent. destruct (joystick_ this) as [d|] eqn:Hj; [|reflexivity].
    cbn [button state].
    destruct (j <? length (buttons (current_data_ this))); [|reflexivity].
    change (SDL_RELEASED =? SDL_PRESSED)%Z with false.
    rewrite list_insert_id by exact Hb. rewrite <- Hj. apply SimpleJoystick_eta. }
  split; [exact Heq | now rewrite Heq].
Qed.

Lemma press_release_round_trip_witness :
  buttons (getData pad4_open) !! 1 = Some false
  /\ mainTick (drain [ (plugged pad4, SDL_JOYBUTTONDOWN {| button := 1; state := SDL_PRESSED |});
                       (plugged pad4, SDL_JOYBUTTONUP {| button := 1; state := SDL_RELEASED |}) ]
                 pad4_open)
       (Some [false; false; false; false])
     = Some ([StatusLine (getData pad4_open)], Some [false; false; false; false]).
Proof.
  assert (Hb : buttons (getData pad4_open) !! 1 = Some false) by reflexivity.
  split; [exact Hb|].
  rewrite (proj2 (press_release_round_trip pad4_open 1 (plugged pad4) (plugged pad4)
                    (Some [false; false; false; false]) Hb)).
  reflexivity.
Defined.

(** ** The control channel *)

Lemma key_switch_frame cmd running joystick running' joystick' out :
  key_switch cmd running joystick = (running', joystick', out) ->
  joystick_ joystick' = joystick_ joystick
  /\ current_data_ joystick' = current_data_ joystick
  /\ running' = running && negb (is_quit_key cmd)
  /\ running_ joystick' = running_ joystick && negb (is_stop_key cmd).
Proof.
  unfold isRunning.
  destruct cmd; cbn [key_switch is_quit_key is_stop_key negb]; unfold isRunning;
    destruct (running_ joystick) eqn:Hr; cbn [negb];
    intros [= <- <- <-]; cbn [stop joystick_ current_data_ running_];
    rewrite ?Hr, ?Bool.andb_true_r, ?Bool.andb_false_r; auto.
Qed.

(** X14: what a key can do.  Whatever character is read, the device handle
    and the stored snapshot are untouched; [program_running] is cleared by
    'q' and kept by every other key; the joystick's run flag is cleared by
    's' and by 'q' and kept by every other key.  No key sets either flag:
    a second 's' does not resume, 'r' does not reconnect. *)
Theorem key_effects (cmd : Byte.byte) (running : bool) (joystick : SimpleJoystick)
    (running' : bool) (joystick' : SimpleJoystick) (out : list console_line) :
  key_switch cmd running joystick = (running', joystick', out) ->
  joystick_ joystick' = joystick_ joystick
  /\ getData joystick' = getData joystick
  /\ running' = running && negb (is_quit_key cmd)
  /\ isRunning joystick' = isRunning joystick && negb (is_stop_key cmd)
  /\ (isRunning joystick = false -> joystick' = joystick).
Proof.
  intros H. destruct (key_switch_frame _ _ _ _ _ _ H) as (Hj & Hd & Hr & Hs).
  unfold getData, isRunning. repeat split; try assumption.
  intros Hstop. rewrite Hstop in Hs. simpl in Hs.
  destruct joystick as [h d r], joystick' as [h' d' r']. simpl in *. congruence.
Qed.

Lemma key_effects_witness :
  key_switch Byte.x73 true (stop pad1_open) = (true, stop pad1_open, [KbCannotRestart])
  /\ isRunning (stop pad1_open) = false.
Proof.
  assert (H : key_switch Byte.x73 true (stop pad1_open)
              = (true, stop pad1_open, [KbCannotRestart])) by reflexivity.
  split; [exact H|].
  pose proof (proj1 (proj2 (proj2 (proj2 (key_effects _ _ _ _ _ _ H))))) as Hs.
  exact Hs.
Defined.

Lemma keyboard_loop_stopped input joystick :
  keyboard_loop input false joystick = (false, joystick, []).
Proof. now destruct input. Qed.

(** X15: nothing after 'q' is read.  On any input, the listener behaves on
    the characters up to and including the first 'q' it reads exactly as on
    the whole input, and it ends with [program_running] false and the
    joystick stopped. *)
Theorem quit_ends_listener
    (before after : list Byte.byte) (running : bool) (joystick : SimpleJoystick) :
  keyboard_loop (before ++ Byte.x71 :: after) running joystick
  = keyboard_loop (before ++ [Byte.x71]) running joystick
  /\ fst (fst (keyboard_loop (before ++ Byte.x71 :: after) running joystick)) = false
  /\ (running = true ->
      isRunning (snd (fst (keyboard_loop (before ++ Byte.x71 :: after) running joystick)))
      = false).
Proof.
  revert running joystick. induction before as [|cmd before IH]; intros running joystick.
  - cbn [List.app keyboard_loop key_switch]. destruct running.
    + rewrite !keyboard_loop_stopped. repeat split.
    + repeat split. discriminate.
  - cbn [List.app keyboard_loop]. destruct running; [|repeat split; discriminate].
    destruct (key_switch cmd true joystick) as [[r j] out] eqn:Hk.
    destruct (IH r j) as (Heq & Hrun & Hstop). rewrite Heq in Hrun, Hstop |- *.
    clear Heq.
    destruct (keyboard_loop (before ++ [Byte.x71]) r j) as [[r' j'] out'] eqn:Hl.
    cbn [fst snd] in *.
    split; [reflexivity|]. split; [exact Hrun|]. intros _.
    destruct r; [now apply Hstop|].
    rewrite keyboard_loop_stopped in Hl. injection Hl as _ <- _.
    destruct (key_switch_frame _ _ _ _ _ _ Hk) as (_ & _ & Hr & Hs).
    unfold isRunning. rewrite Hs.
    destruct cmd; cbn [is_quit_key is_stop_key negb] in *;
      rewrite ?Bool.andb_false_r; try reflexivity; discriminate.
Qed.

Lemma quit_ends_listener_witness :
  true = true
  /\ keyboard_loop [Byte.x73; Byte.x71; Byte.x73; Byte.x72] true pad1_open
     = (false, stop pad1_open, [KbPaused; KbExiting])
  /\ isRunning (snd (fst (keyboard_loop [Byte.x73; Byte.x71; Byte.x73; Byte.x72] true
                            pad1_open))) = false.
Proof.
  split; [reflexivity|]. split.
  - exact (eq_trans
             (proj1 (quit_ends_listener [Byte.x73] [Byte.x73; Byte.x72] true pad1_open))
             eq_refl).
  - exact (proj2 (proj2 (quit_ends_listener [Byte.x73] [Byte.x73; Byte.x72] true pad1_open))
             eq_refl).
Defined.

(** ** The poller's run flag *)

Lemma dispatch_running open event this :
  running_ (dispatch open event this) = running_ this.
Proof.
  destruct event as [jaxis|jbutton|jbutton|which|which|]; cbn [dispatch].
  - now destruct (handleAxisEvent_frame jaxis this) as (_ & -> & _).
  - now destruct (handleButtonEvent_frame jbutton this) as (_ & -> & _).
  - now destruct (handleButtonEvent_frame jbutton this) as (_ & -> & _).
  - destruct (joystick_ this); [reflexivity|]. cbv zeta.
    change (joystick_ (set_joystick (open which) this)) with (open which).
    destruct (open which) eqn:Ho; [|reflexivity].
    unfold initJoystick. cbn [set_joystick joystick_]. rewrite ?Ho. reflexivity.
  - destruct (joystick_ this) as [j|]; [|reflexivity].
    now destruct (which =? instance_id j)%Z.
  - reflexivity.
Qed.

Lemma drain_running queue this : isRunning (drain queue this) = isRunning this.
Proof.
  revert this. induction queue as [|[open event] rest IH]; intros this; [reflexivity|].
  cbn [drain]. rewrite IH. apply dispatch_running.
Qed.

Lemma eventLoop_stopped passes this :
  isRunning this = false -> eventLoop passes this = this.
Proof. intros H. unfold isRunning in H. destruct passes; cbn [eventLoop]; now rewrite ?H. Qed.

Lemma eventLoop_running passes this :
  isRunning this = true -> eventLoop passes this = drain (concat passes) this.
Proof.
  revert this. induction passes as [|queue rest IH]; intros this Hrun; [reflexivity|].
  cbn [eventLoop concat]. unfold isRunning in Hrun. rewrite Hrun.
  rewrite IH by (rewrite drain_running; exact Hrun).
  clear. revert this. induction queue as [|[open event] queue IHq]; intros this; [reflexivity|].
  cbn [List.app drain]. apply IHq.
Qed.



(** ** The three threads together *)

Lemma step_pad_invariant (j : SDL_Joystick) (a : action) (p : process) :
  pad_invariant j p ->
  removes (instance_id j) a = false ->
  exists p', step a p = Some p' /\ pad_invariant j p'.
Proof.
  intros (Hj & Hm & Hlast) Hrem. destruct a as [open event|cmd|].
  - eexists. split; [reflexivity|]. unfold pad_invariant. cbn [proc_joystick proc_last].
    assert (Hj' : joystick_ (dispatch open event (proc_joystick p)) = Some j).
    { apply dispatch_keeps_handle; [exact Hj|]. intros ->. cbn [removes] in Hrem.
      now rewrite Z.eqb_refl in Hrem. }
    split; [exact Hj'|]. split; [now apply dispatch_lengths_match | exact Hlast].
  - cbn [step]. destruct (proc_program_running p) eqn:Hrun.
    + destruct (key_switch cmd true (proc_joystick p)) as [[r js] out] eqn:Hk.
      eexists. split; [reflexivity|]. unfold pad_invariant. cbn [proc_joystick proc_last].
      destruct (key_switch_frame _ _ _ _ _ _ Hk) as (Hh & Hd & _).
      split; [congruence|]. split; [|exact Hlast].
      unfold lengths_match, getData in *. rewrite Hh, Hd. exact Hm.
    + exists p. split; [reflexivity|]. exact (conj Hj (conj Hm Hlast)).
  - cbn [step]. destruct (proc_program_running p) eqn:Hrun.
    + destruct (isRunning (proc_joystick p)) eqn:Hr.
      * rewrite mainTick_running; [|exact Hr|].
        -- eexists. split; [reflexivity|]. unfold pad_invariant.
           cbn [proc_joystick proc_last]. split; [exact Hj|]. split; [exact Hm|].
           apply (Hm j Hj).
        -- apply reads_in_bounds_length. destruct (proc_last p) as [l|]; cbn [previous_of].
           ++ rewrite Hlast. now rewrite (proj2 (Hm j Hj)).
           ++ reflexivity.
      * rewrite mainTick_stopped by exact Hr.
        eexists. split; [reflexivity|]. exact (conj Hj (conj Hm Hlast)).
    + exists p. split; [reflexivity|]. exact (conj Hj (conj Hm Hlast)).
Qed.

Lemma run_pad_invariant (j : SDL_Joystick) (schedule : list action) (p : process) :
  pad_invariant j p ->
  Forall (fun a => removes (instance_id j) a = false) schedule ->
  exists p', run schedule p = Some p' /\ pad_invariant j p'.
Proof.
  intros Hinv Hs. revert p Hinv. induction Hs as [|a rest Ha _ IH]; intros p Hinv.
  - exists p. split; [reflexivity | exact Hinv].
  - destruct (step_pad_invariant j a p Hinv Ha) as (p1 & Hstep & Hinv1).
    cbn [run]. rewrite Hstep. now apply IH.
Qed.

(** X17: with the pad there from the start and never unplugged, no pass
    of main reads past the end of [last_button_state].  From an object
    constructed with a device open, every schedule of poller events, keys
    and passes of main that holds no removal of that device's instance id
    runs to the end; the device is still open, the store still has the
    lengths the device reported, and the previous button state, once set,
    has as many entries as the device has buttons. *)
Theorem pad_present_passes_defined
    (num : Z) (j : SDL_Joystick) (schedule : list action) :
  (0 < num)%Z ->
  Forall (fun a => removes (instance_id j) a = false) schedule ->
  exists p,
    run schedule (boot num (Some j)) = Some p
    /\ joystick_ (proc_joystick p) = Some j
    /\ length (axes (getData (proc_joystick p))) = num_axes j
    /\ length (buttons (getData (proc_joystick p))) = num_buttons j
    /\ (forall l, proc_last p = Some l -> length l = num_buttons j).
Proof.
  intros Hnum Hs.
  assert (Hinv : pad_invariant j (boot num (Some j))).
  { unfold pad_invariant, boot. cbn [proc_joystick proc_last].
    unfold SimpleJoystick_ctor. destruct (Z.ltb_spec 0 num) as [_|Hle]; [|lia].
    split; [reflexivity|]. split; [|exact I].
    intros j0 [= <-]. unfold getData, vector_resize. simpl. now rewrite !length_resize. }
  destruct (run_pad_invariant j schedule _ Hinv Hs) as (p & Hrun & Hj & Hm & Hlast).
  exists p. split; [exact Hrun|]. split; [exact Hj|].
  destruct (Hm j Hj) as [Ha Hb]. split; [exact Ha|]. split; [exact Hb|].
  intros l Hl. now rewrite Hl in Hlast.
Qed.

Lemma pad4_schedule_keeps_pad :
  Forall (fun a => removes (instance_id pad4) a = false) pad4_schedule.
Proof.
  unfold pad4_schedule. repeat (apply List.Forall_cons; [reflexivity|]). apply List.Forall_nil.
Qed.

Lemma pad_present_passes_defined_witness :
  (0 < 1)%Z
  /\ exists p, run pad4_schedule (boot 1 (Some pad4)) = Some p
               /\ joystick_ (proc_joystick p) = Some pad4.
Proof.
  assert (H : (0 < 1)%Z) by lia.
  split; [exact H|].
  destruct (pad_present_passes_defined 1 pad4 pad4_schedule H pad4_schedule_keeps_pad)
    as (p & Hrun & Hj & _).
  exists p. split; [exact Hrun | exact Hj].
Defined.

(** ** Keys and events on the shared object *)

Lemma apply_inputs_stopped (inputs : list control_input) (running : bool)
    (joystick : SimpleJoystick) :
  isRunning joystick = false ->
  isRunning (snd (apply_inputs inputs running joystick)) = false.
Proof.
  revert running joystick. induction inputs as [|input rest IH]; intros running joystick Hstop.
  - exact Hstop.
  - destruct input as [cmd|open event]; cbn [apply_inputs].
    + destruct running; [|now apply IH].
      destruct (key_switch cmd true joystick) as [[r j] out] eqn:Hk.
      apply IH. destruct (key_switch_frame _ _ _ _ _ _ Hk) as (_ & _ & _ & Hr).
      unfold isRunning in *. now rewrite Hr, Hstop.
    + apply IH. unfold isRunning in *. now rewrite dispatch_running.
Qed.

(** X18: a stop is for good.  Once the listener has handled 's' or 'q',
    [isRunning()] is false after any further keys and poller events: no
    key and no event sets the run flag again, a second 's' does not resume.
    A pass of main that finds the object in any such state prints nothing
    and leaves [last_button_state] as it was. *)
Theorem stop_is_permanent
    (cmd : Byte.byte) (inputs : list control_input) (joystick : SimpleJoystick) :
  is_stop_key cmd = true ->
  isRunning (snd (apply_inputs (KeyInput cmd :: inputs) true joystick)) = false
  /\ (forall last,
        mainTick (snd (apply_inputs (KeyInput cmd :: inputs) true joystick)) last
        = Some ([], last)).
Proof.
  intros Hkey.
  assert (Hstop : isRunning (snd (apply_inputs (KeyInput cmd :: inputs) true joystick)) = false).
  { cbn [apply_inputs].
    destruct (key_switch cmd true joystick) as [[r j] out] eqn:Hk.
    apply apply_inputs_stopped.
    destruct (key_switch_frame _ _ _ _ _ _ Hk) as (_ & _ & _ & Hr).
    unfold isRunning. now rewrite Hr, Hkey, Bool.andb_false_r. }
  split; [exact Hstop|]. intros last. now apply mainTick_stopped.
Qed.

Lemma stop_is_permanent_witness :
  is_stop_key Byte.x73 = true
  /\ mainTick
       (snd (apply_inputs
               [ KeyInput Byte.x73;
                 EventInput (plugged pad4)
                   (SDL_JOYBUTTONDOWN {| button := 1; state := SDL_PRESSED |});
                 KeyInput Byte.x73; KeyInput Byte.x72 ]
               true pad4_open))
       (Some [false; false; false; false])
     = Some ([], Some [false; false; false; false]).
Proof.
  assert (Hkey : is_stop_key Byte.x73 = true) by reflexivity.
  split; [exact Hkey|].
  exact (proj2 (stop_is_permanent Byte.x73
                  [ EventInput (plugged pad4)
                      (SDL_JOYBUTTONDOWN {| button := 1; state := SDL_PRESSED |});
                    KeyInput Byte.x73; KeyInput Byte.x72 ]
                  pad4_open Hkey) (Some [false; false; false; false])).
Defined.

(** ** Several passes of main *)

Lemma tick_command_count (joystick : SimpleJoystick) (last : option (list bool)) (i : nat) :
  isRunning joystick = true ->
  reads_in_bounds (buttons (getData joystick)) (previous_of last (getData joystick)) = true ->
  exists trace,
    mainTick joystick last = Some (trace, Some (buttons (getData joystick)))
    /\ length (emitted_for i trace)
       = if i <? 4
         then (if edge (buttons (getData joystick)) (previous_of last (getData joystick)) i
               then 1 else 0)
         else 0.
Proof.
  intros Hrun Hb. eexists. split; [now apply mainTick_running|].
  rewrite emitted_for_tick. unfold edge_output.
  destruct (edge _ _ i).
  - rewrite button_command_length. now destruct (i <? 4).
  - now destruct (i <? 4).
Qed.

Lemma previous_of_default (last : option (list bool)) (data : JoystickData) :
  previous_of last data = default (buttons data) last.
Proof. now destruct last. Qed.

(** X19: commands count the rising edges main sees.  Over any number of
    passes that find the joystick running with the same number of buttons,
    the commands printed for a button below 4 are as many as the
    false-to-true steps of that button from one snapshot read to the next
    (the first snapshot compared with the previous state, or with itself on
    the first pass ever), and none are printed for a button from 4 up; the
    previous state ends as the last snapshot read. *)
Theorem commands_count_rising_edges
    (n : nat) (found : list SimpleJoystick) (last : option (list bool)) :
  Forall (running_with n) found ->
  last_has n last ->
  exists trace,
    main_passes found last = Some (trace, final_last last (snapshot_buttons found))
    /\ forall i, length (emitted_for i trace)
                 = if i <? 4 then rising_edges i last (snapshot_buttons found) else 0.
Proof.
  intros Hf. revert last. induction Hf as [|joystick rest [Hrun Hlen] _ IH]; intros last Hlast.
  - exists []. split; [reflexivity|]. intros i. now destruct (i <? 4).
  - assert (Hb : reads_in_bounds (buttons (getData joystick))
                   (previous_of last (getData joystick)) = true).
    { apply reads_in_bounds_length. destruct last as [l|]; cbn [previous_of last_has] in *; lia. }
    destruct (IH (Some (buttons (getData joystick))) Hlen) as (trace' & Hrest & Hcount).
    destruct (tick_command_count joystick last 0 Hrun Hb) as (trace & Htick & _).
    exists (trace ++ trace'). split.
    + cbn [main_passes]. rewrite Htick, Hrest. reflexivity.
    + intros i. rewrite emitted_for_app, List.length_app, Hcount.
      destruct (tick_command_count joystick last i Hrun Hb) as (trace0 & Htick0 & Hc0).
      rewrite Htick in Htick0. injection Htick0 as <-. rewrite Hc0.
      cbn [snapshot_buttons List.map rising_edges].
      rewrite previous_of_default. now destruct (i <? 4).
Qed.

Lemma tap_hold_tap_running : Forall (running_with 4) tap_hold_tap.
Proof.
  unfold tap_hold_tap. repeat (apply List.Forall_cons; [split; reflexivity|]).
  apply List.Forall_nil.
Qed.

Lemma commands_count_rising_edges_witness :
  last_has 4 None
  /\ exists trace,
       main_passes tap_hold_tap None = Some (trace, Some [false; true; false; false])
       /\ length (emitted_for 1 trace) = 2.
Proof.
  assert (Hl : last_has 4 None) by exact I.
  split; [exact Hl|].
  destruct (commands_count_rising_edges 4 tap_hold_tap None tap_hold_tap_running Hl)
    as (trace & Hrun & Hcount).
  exists trace. split; [exact Hrun | exact (Hcount 1)].
Defined.

(** ** The shape of one pass *)

Lemma reads_out_of_bounds_iff (cur prev : list bool) :
  reads_in_bounds cur prev = false <->
  exists k, cur !! k = Some true /\ length prev <= k.
Proof.
  split.
  - revert prev. induction cur as [|c cs IH]; intros prev H; [discriminate|].
    destruct prev as [|p ps]; cbn [reads_in_bounds] in H.
    + destruct c.
      * exists 0. split; [reflexivity | simpl; lia].
      * destruct (IH [] H) as (k & Hk & _). exists (S k). split; [exact Hk | simpl; lia].
    + destruct (IH ps H) as (k & Hk & Hle). exists (S k). split; [exact Hk | simpl; lia].
  - intros (k & Hk & Hle). apply Bool.not_true_iff_false. intros Hb.
    pose proof (proj1 (reads_in_bounds_spec cur prev) Hb k Hk). lia.
Qed.

(** X20: when a pass is undefined.  A pass of main reads
    [last_button_state] past its end exactly when the joystick is running
    and some button that is pressed in the snapshot has an index at or
    beyond the length of the previous state; in particular the first pass
    ever, and every pass whose snapshot has no more buttons than the
    previous state, is defined. *)
Theorem pass_undefined_iff (joystick : SimpleJoystick) (last : option (list bool)) :
  (mainTick joystick last = None <->
   (isRunning joystick = true
    /\ exists k, buttons (getData joystick) !! k = Some true
                 /\ length (previous_of last (getData joystick)) <= k))
  /\ mainTick joystick None <> None
  /\ (length (buttons (getData joystick)) <= length (previous_of last (getData joystick)) ->
      mainTick joystick last <> None).
Proof.
  assert (Hiff : mainTick joystick last = None <->
                 (isRunning joystick = true
                  /\ reads_in_bounds (buttons (getData joystick))
                       (previous_of last (getData joystick)) = false)).
  { destruct (isRunning joystick) eqn:Hrun.
    - destruct (reads_in_bounds (buttons (getData joystick))
                  (previous_of last (getData joystick))) eqn:Hb.
      + rewrite mainTick_running by assumption. split; [discriminate|]. intros [_ H]. discriminate.
      + rewrite mainTick_undefined by assumption. split; auto.
    - rewrite mainTick_stopped by assumption. split; [discriminate|]. intros [H _]. discriminate. }
  split; [|split].
  - rewrite Hiff, reads_out_of_bounds_iff. reflexivity.
  - destruct (isRunning joystick) eqn:Hrun.
    + rewrite mainTick_running; [discriminate | exact Hrun | apply reads_in_bounds_same].
    + rewrite mainTick_stopped by exact Hrun. discriminate.
  - intros Hle Hnone. apply Hiff in Hnone as [_ Hb].
    rewrite reads_in_bounds_length in Hb by exact Hle. discriminate.
Qed.

Lemma pass_undefined_iff_witness :
  length (buttons (getData (with_buttons [true; false])))
  <= length (previous_of (Some [false; false; true]) (getData (with_buttons [true; false])))
  /\ mainTick (with_buttons [true; false]) (Some [false; false; true]) <> None
  /\ mainTick late_attach (Some []) = None.
Proof.
  assert (Hle : length (buttons (getData (with_buttons [true; false])))
                <= length (previous_of (Some [false; false; true])
                             (getData (with_buttons [true; false]))))
    by (simpl; lia).
  split; [exact Hle|]. split.
  - exact (proj2 (proj2 (pass_undefined_iff (with_buttons [true; false])
                           (Some [false; false; true]))) Hle).
  - apply (proj2 (proj1 (pass_undefined_iff late_attach (Some [])))).
    split; [reflexivity|]. exists 1. split; [reflexivity | simpl; lia].
Defined.

Lemma edge_output_length (cur prev : list bool) (k : nat) :
  length (edge_output cur prev k) <= if k <? 4 then 1 else 0.
Proof.
  unfold edge_output. destruct (edge cur prev k).
  - rewrite button_command_length. reflexivity.
  - simpl. destruct (k <? 4); lia.
Qed.

Lemma loop_output_length (cur prev : list bool) (n i : nat) :
  length (loop_output cur prev i n) + Nat.min i 4 <= Nat.min (i + n) 4.
Proof.
  unfold loop_output. revert i. induction n as [|n IH]; intros i.
  - simpl. rewrite Nat.add_0_r. lia.
  - cbn [seq List.flat_map]. rewrite List.length_app.
    pose proof (edge_output_length cur prev i) as He. specialize (IH (S i)).
    destruct (Nat.ltb_spec i 4); lia.
Qed.

Lemma button_command_table (i : nat) : Forall table_line (button_command i).
Proof.
  destruct i as [|[|[|[|i]]]].
  - apply List.Forall_cons; [exists 0; split; [lia|reflexivity] | constructor].
  - apply List.Forall_cons; [exists 1; split; [lia|reflexivity] | constructor].
  - apply List.Forall_cons; [exists 2; split; [lia|reflexivity] | constructor].
  - apply List.Forall_cons; [exists 3; split; [lia|reflexivity] | constructor].
  - constructor.
Qed.

Lemma loop_output_table (cur prev : list bool) (n i : nat) :
  Forall table_line (loop_output cur prev i n).
Proof.
  unfold loop_output. revert i. induction n as [|n IH]; intros i; [constructor|].
  cbn [seq List.flat_map]. apply Forall_app. split; [|apply IH].
  unfold edge_output. destruct (edge cur prev i); [apply button_command_table | constructor].
Qed.

(** X21: what a running pass prints.  A defined pass that finds the
    joystick running prints the status line of the snapshot first and then
    only lines of the command table: at most four of them, at most one per
    button, and never more than there are buttons. *)
Theorem running_pass_output
    (joystick : SimpleJoystick) (last : option (list bool))
    (trace : list output) (last' : option (list bool)) :
  isRunning joystick = true ->
  mainTick joystick last = Some (trace, last') ->
  exists cmds,
    trace = StatusLine (getData joystick) :: cmds
    /\ Forall table_line cmds
    /\ length cmds <= 4
    /\ length cmds <= length (buttons (getData joystick))
    /\ (forall i, length (emitted_for i trace) <= 1).
Proof.
  intros Hrun Htick.
  destruct (reads_in_bounds (buttons (getData joystick))
              (previous_of last (getData joystick))) eqn:Hb.
  2: { rewrite mainTick_undefined in Htick by assumption. discriminate. }
  rewrite mainTick_running in Htick by assumption. injection Htick as <- <-.
  eexists. split; [reflexivity|]. split; [apply loop_output_table|].
  pose proof (loop_output_length (buttons (getData joystick))
                (previous_of last (getData joystick))
                (length (buttons (getData joystick))) 0) as Hlen.
  split; [lia|]. split; [lia|].
  intros i. rewrite emitted_for_tick. unfold edge_output.
  destruct (edge _ _ i); [|simpl; lia].
  rewrite button_command_length. destruct (i <? 4); lia.
Qed.

Lemma running_pass_output_witness :
  isRunning (with_buttons [true; true; true; true; true; true]) = true
  /\ exists trace last',
       mainTick (with_buttons [true; true; true; true; true; true])
         (Some [false; false; false; false; false; false]) = Some (trace, last')
       /\ exists cmds,
            trace = StatusLine (getData (with_buttons [true; true; true; true; true; true]))
                      :: cmds
            /\ length cmds <= 4.
Proof.
  split; [reflexivity|].
  eexists. eexists. split; [reflexivity|].
  destruct (running_pass_output (with_buttons [true; true; true; true; true; true])
              (Some [false; false; false; false; false; false]) _ _ eq_refl eq_refl)
    as (cmds & Htrace & _ & Hlen & _).
  exists cmds. split; [exact Htrace | exact Hlen].
Defined.
